(** * The open path of the Weenix VFS layer: [get_empty_fd] and [do_open]

    A shallow embedding of [kernel/fs/open.c].  The kernel state that the
    two functions touch (the current process with its descriptor table, the
    pool of open-file objects, the vnodes with their reference counts) is
    threaded explicitly; a stray memory access is an explicit [Crash].

    A C [int] is a [Z].  The only arithmetic of the two functions is [fd++]
    below [NFILES] and the negation of an error number, so nothing wraps
    around; [&] and [|] are [Z.land] and [Z.lor], which agree with the
    two's complement operations on every [int]. *)

From Stdlib Require Import ZArith Lia Bool.
From stdpp Require Import base option list gmap strings.

Local Open Scope Z_scope.

(** ** Constants of headers that are not part of this source tree *)

(** [fs/fcntl.h], [fs/file.h], [fs/stat.h], [errno.h] and [config.h] are
    included by [open.c] but are not available here: their constants are
    parameters of the development.  [NFILES] is the number of entries of
    [p_files]. *)
Class Headers := {
  NFILES : nat;
  O_WRONLY : Z;
  O_RDWR : Z;
  O_APPEND : Z;
  O_TRUNC : Z;
  O_CREAT : Z;
  FMODE_READ : Z;
  FMODE_WRITE : Z;
  FMODE_APPEND : Z;
  S_IFDIR : Z;
  EINVAL : Z;
  EMFILE : Z;
  ENOMEM : Z;
  EISDIR : Z
}.

(** ** Data model *)

(** Pointers are names of objects in the stores below; a nullable C pointer
    is an [option]. *)
Definition file_ptr := nat.
Definition vnode_ptr := nat.

(** [file_t]: the open-file object. *)
Record file_t := mk_file {
  f_mode : Z;
  f_pos : Z;
  f_refcount : Z;
  f_vnode : option vnode_ptr
}.

(** [vnode_t], reduced to the two fields that matter here. *)
Record vnode_t := mk_vnode {
  vn_mode : Z;
  vn_refcount : Z
}.

(** [proc_t], reduced to the fields [open.c] reads or writes. *)
Record proc_t := mk_proc {
  p_pid : Z;
  p_files : list (option file_ptr);
  p_cwd : vnode_ptr
}.

Record kernel := mk_kernel {
  curproc : proc_t;
  file_allocator : gmap file_ptr file_t;
  vnodes : gmap vnode_ptr vnode_t
}.

Definition with_files (tbl : list (option file_ptr)) (k : kernel) : kernel :=
  mk_kernel (mk_proc (p_pid (curproc k)) tbl (p_cwd (curproc k)))
            (file_allocator k) (vnodes k).

Definition with_file_allocator (h : gmap file_ptr file_t) (k : kernel) : kernel :=
  mk_kernel (curproc k) h (vnodes k).

Definition with_vnodes (vs : gmap vnode_ptr vnode_t) (k : kernel) : kernel :=
  mk_kernel (curproc k) (file_allocator k) vs.

(** ** Memory faults and their propagation *)

Inductive fault := OutOfBounds | NullPointer | DanglingPointer.

Inductive outcome (A : Type) : Type :=
| Done (a : A)
| Crash (e : fault).
Arguments Done {A} a.
Arguments Crash {A} e.

Definition and_then {A B : Type} (m : outcome A) (f : A -> outcome B) : outcome B :=
  match m with
  | Done a => f a
  | Crash e => Crash e
  end.

Notation "'run' x <- m ; k" := (and_then m (fun x => k))
  (at level 10, x name, m at level 100, k at level 200).

(** ** Collaborators outside this source tree *)

(** The slab allocator behind [fget(-1)] and the path resolver are external:
    they are parameters.  The allocator sees the pool of file objects and
    answers with a pointer and the raw contents [(f_mode, f_pos)] of the
    object it hands out, or with [None] when memory is exhausted.  The
    resolver sees the path, the flags, the starting directory and the vnodes,
    and answers with its status, the vnode pointer it stored through
    [res_vnode] (if any) and the vnodes as it leaves them. *)
Class Collaborators := {
  slab_obj_alloc : gmap file_ptr file_t -> option (file_ptr * (Z * Z));
  open_namev : string -> Z -> vnode_ptr -> gmap vnode_ptr vnode_t ->
               Z * option vnode_ptr * gmap vnode_ptr vnode_t
}.

Section Open.

Context {hdr : Headers} {ext : Collaborators}.

(** Modelled from the spec: [fget] with argument [-1] is defined in
    [fs/file.c], which is missing.  It obtains a fresh, reference-counted,
    uninitialized open-file object: one initial reference, no vnode
    reference, mode and offset not yet meaningful; it yields NULL when the
    allocation fails. *)
Definition fget_fresh (k : kernel) : option (file_ptr * kernel) :=
  match slab_obj_alloc (file_allocator k) with
  | None => None
  | Some (f, (m0, p0)) =>
      Some (f, with_file_allocator
                 (<[f := mk_file m0 p0 1 None]> (file_allocator k)) k)
  end.

(** Modelled from the spec: [vput] is defined in [fs/vnode.c], which is
    missing.  It is the explicit decrement-and-possibly-destroy operation on
    a vnode reference; [vnode_release] is its effect on the vnodes. *)
Definition vnode_release (v : vnode_ptr) (vs : gmap vnode_ptr vnode_t)
  : outcome (gmap vnode_ptr vnode_t) :=
  match vs !! v with
  | None => Crash DanglingPointer
  | Some vn =>
      let c := vn_refcount vn - 1 in
      if c =? 0
      then Done (delete v vs)
      else Done (<[v := mk_vnode (vn_mode vn) c]> vs)
  end.

Definition vput (v : vnode_ptr) (k : kernel) : outcome kernel :=
  run vs <- vnode_release v (vnodes k);
  Done (with_vnodes vs k).

(** Modelled from the spec: [fput] is defined in [fs/file.c], which is
    missing.  It decrements the reference count and destroys the object only
    when the count reaches zero; the object owns the vnode reference it
    stores, which goes with it. *)
Definition fput (f : file_ptr) (k : kernel) : outcome kernel :=
  match file_allocator k !! f with
  | None => Crash DanglingPointer
  | Some fo =>
      let c := f_refcount fo - 1 in
      if c =? 0
      then
        run k1 <- match f_vnode fo with
                  | Some v => vput v k
                  | None => Done k
                  end;
        Done (with_file_allocator (delete f (file_allocator k1)) k1)
      else
        Done (with_file_allocator
                (<[f := mk_file (f_mode fo) (f_pos fo) c (f_vnode fo)]>
                   (file_allocator k)) k)
  end.

(** ** Accesses to the descriptor table and to a file object *)

(** [p->p_files[fd]] as an rvalue. *)
Definition read_fd (p : proc_t) (fd : Z) : outcome (option file_ptr) :=
  if fd <? 0 then Crash OutOfBounds
  else match p_files p !! Z.to_nat fd with
       | Some slot => Done slot
       | None => Crash OutOfBounds
       end.

(** [curproc->p_files[fd] = slot]. *)
Definition write_fd (fd : Z) (slot : option file_ptr) (k : kernel) : outcome kernel :=
  if (0 <=? fd) && (fd <? Z.of_nat (length (p_files (curproc k))))
  then Done (with_files (<[Z.to_nat fd := slot]> (p_files (curproc k))) k)
  else Crash OutOfBounds.

(** [file->field = value], for a transformation [upd] of the object. *)
Definition store_file (f : file_ptr) (upd : file_t -> file_t) (k : kernel) : outcome kernel :=
  match file_allocator k !! f with
  | None => Crash DanglingPointer
  | Some fo => Done (with_file_allocator (<[f := upd fo]> (file_allocator k)) k)
  end.

Definition set_f_mode (m : Z) (fo : file_t) : file_t :=
  mk_file m (f_pos fo) (f_refcount fo) (f_vnode fo).

Definition set_f_vnode (v : option vnode_ptr) (fo : file_t) : file_t :=
  mk_file (f_mode fo) (f_pos fo) (f_refcount fo) v.

Definition set_f_pos (pos : Z) (fo : file_t) : file_t :=
  mk_file (f_mode fo) pos (f_refcount fo) (f_vnode fo).

(** ** [get_empty_fd] *)

(** The loop [for (fd = 0; fd < NFILES; fd++)], entered at [fd] with [n]
    iterations left. *)
Fixpoint scan_fd (p : proc_t) (n : nat) (fd : Z) : outcome Z :=
  match n with
  | O => Done (- EMFILE)
  | S n' =>
      run slot <- read_fd p fd;
      match slot with
      | None => Done fd
      | Some _ => scan_fd p n' (fd + 1)
      end
  end.

(** The [dbg] call before [return -EMFILE] only logs. *)
Definition get_empty_fd (p : proc_t) : outcome Z := scan_fd p NFILES 0.

(** ** [do_open] *)

(** The locals computed from [oflags].  The source also computes [trunc]
    and [creat] and never reads them; [oflags] reaches the resolver whole. *)
Definition wr (oflags : Z) : Z := Z.land oflags O_WRONLY.
Definition rdwr (oflags : Z) : Z := Z.land oflags O_RDWR.
Definition rd (oflags : Z) : Z :=
  if (wr oflags =? 0) && (rdwr oflags =? 0) then 1 else 0.
Definition append (oflags : Z) : Z := Z.land oflags O_APPEND.

(** Step 4: the value of the local [mode] when the test [mode == -1] is
    reached. *)
Definition mode (oflags : Z) : Z :=
  if negb (wr oflags =? 0) || negb (rd oflags =? 0) || negb (rdwr oflags =? 0)
  then
    let m :=
      if negb (rd oflags =? 0) then FMODE_READ
      else if negb (wr oflags =? 0) then FMODE_WRITE
      else if negb (rdwr oflags =? 0) then Z.lor FMODE_READ FMODE_WRITE
      else -1 in
    if negb (append oflags =? 0) then Z.lor m FMODE_APPEND else m
  else -1.

Definition do_open (filename : string) (oflags : Z) (k : kernel) : outcome (Z * kernel) :=
  (* check invalid combinations *)
  if negb (wr oflags =? 0) && negb (rdwr oflags =? 0) then Done (- EINVAL, k)
  else
  (* 1. Get the next empty file descriptor *)
  run fd <- get_empty_fd (curproc k);
  if fd =? - EMFILE then Done (- EMFILE, k)
  else
  (* 2. Call fget to get a fresh file_t *)
  match fget_fresh k with
  | None => Done (- ENOMEM, k)
  | Some (file, k) =>
  (* 3. Save the file_t in curproc's file descriptor table *)
  run k <- write_fd fd (Some file) k;
  (* 4. Set file_t->f_mode *)
  if mode oflags =? -1 then
    run k <- write_fd fd None k;
    run k <- fput file k;
    Done (- EINVAL, k)
  else
  run k <- store_file file (set_f_mode (mode oflags)) k;
  (* 5. Use open_namev() to get the vnode for the file_t *)
  let base := p_cwd (curproc k) in
  let '(res, res_vnode, vs) := open_namev filename oflags base (vnodes k) in
  let k := with_vnodes vs k in
  if res <? 0 then
    run k <- write_fd fd None k;
    run k <- match res_vnode with
             | Some v => vput v k
             | None => Done k
             end;
    run k <- fput file k;
    Done (res, k)
  else
  match res_vnode with
  | None => Crash NullPointer
  | Some v =>
  match vnodes k !! v with
  | None => Crash DanglingPointer
  | Some vn =>
  if negb (Z.land (vn_mode vn) S_IFDIR =? 0) && negb (mode oflags =? FMODE_READ) then
    run k <- write_fd fd None k;
    run k <- vput v k;
    run k <- fput file k;
    Done (- EISDIR, k)
  else
  (* 6. Fill in the fields of the file_t *)
  run k <- store_file file (set_f_vnode (Some v)) k;
  run k <- store_file file (set_f_pos 0) k;
  (* 7. return new fd *)
  Done (fd, k)
  end
  end
  end.

(** ** Vocabulary of the specification *)

(** The effect of the guarded [vput] on the resolver-failure path. *)
Definition vnode_release_opt (rv : option vnode_ptr) (vs : gmap vnode_ptr vnode_t)
  : outcome (gmap vnode_ptr vnode_t) :=
  match rv with
  | Some v => vnode_release v vs
  | None => Done vs
  end.

(** A bit of the request is set. *)
Definition has_bit (oflags bit : Z) : bool := negb (Z.land oflags bit =? 0).

(** The base access intent a request selects; a request with both the
    write-only and the read-write bit selects none. *)
Inductive intent := ReadOnly | WriteOnly | ReadWrite.

Definition intent_of (oflags : Z) : option intent :=
  match has_bit oflags O_WRONLY, has_bit oflags O_RDWR with
  | false, false => Some ReadOnly
  | true, false => Some WriteOnly
  | false, true => Some ReadWrite
  | true, true => None
  end.

(** The stored mode the specification asks for: the OR of the mode bits of
    the intent, and of the append bit when append is requested. *)
Definition intent_fmode (i : intent) (app : bool) : Z :=
  Z.lor (match i with
         | ReadOnly => FMODE_READ
         | WriteOnly => FMODE_WRITE
         | ReadWrite => Z.lor FMODE_READ FMODE_WRITE
         end)
        (if app then FMODE_APPEND else 0).

(** The descriptor table is the C array of [NFILES] entries. *)
Definition table_ok (p : proc_t) : Prop := length (p_files p) = NFILES.

Definition occupied (p : proc_t) (i : nat) : Prop :=
  exists f, p_files p !! i = Some (Some f).

Definition all_occupied (p : proc_t) : Prop :=
  forall i, (i < NFILES)%nat -> occupied p i.

(** The lowest free descriptor: slot [j] is null and every slot below is
    occupied. *)
Definition lowest_free (p : proc_t) (j : nat) : Prop :=
  (j < NFILES)%nat /\ p_files p !! j = Some None /\
  forall i, (i < j)%nat -> occupied p i.

(** The allocator hands out an object that is not in use. *)
Definition fresh_alloc (k : kernel) : Prop :=
  match slab_obj_alloc (file_allocator k) with
  | Some (f, _) => file_allocator k !! f = None
  | None => True
  end.

(** The mode bits are bit masks, the error numbers are positive. *)
Definition fmode_nonneg : Prop :=
  0 <= FMODE_READ /\ 0 <= FMODE_WRITE /\ 0 <= FMODE_APPEND.

Definition errno_positive : Prop :=
  0 < EINVAL /\ 0 < EMFILE /\ 0 < ENOMEM /\ 0 < EISDIR.

(** The exits of [do_open], one constructor per [return] of the source and
    per memory fault, with the state each one leaves. *)
Inductive open_exit (filename : string) (oflags : Z) (k : kernel)
  : outcome (Z * kernel) -> Prop :=
| exit_flags :
    intent_of oflags = None ->
    open_exit filename oflags k (Done (- EINVAL, k))
| exit_emfile :
    intent_of oflags <> None ->
    all_occupied (curproc k) ->
    open_exit filename oflags k (Done (- EMFILE, k))
| exit_emfile_alias j :
    intent_of oflags <> None ->
    lowest_free (curproc k) j ->
    Z.of_nat j = - EMFILE ->
    open_exit filename oflags k (Done (- EMFILE, k))
| exit_enomem j :
    intent_of oflags <> None ->
    lowest_free (curproc k) j ->
    Z.of_nat j <> - EMFILE ->
    slab_obj_alloc (file_allocator k) = None ->
    open_exit filename oflags k (Done (- ENOMEM, k))
| exit_mode j f c :
    intent_of oflags <> None ->
    lowest_free (curproc k) j ->
    Z.of_nat j <> - EMFILE ->
    slab_obj_alloc (file_allocator k) = Some (f, c) ->
    mode oflags = -1 ->
    open_exit filename oflags k
      (Done (- EINVAL, with_file_allocator (delete f (file_allocator k)) k))
| exit_namev j f c res rv vs vs' :
    intent_of oflags <> None ->
    lowest_free (curproc k) j ->
    Z.of_nat j <> - EMFILE ->
    slab_obj_alloc (file_allocator k) = Some (f, c) ->
    mode oflags <> -1 ->
    open_namev filename oflags (p_cwd (curproc k)) (vnodes k) = (res, rv, vs) ->
    res < 0 ->
    vnode_release_opt rv vs = Done vs' ->
    open_exit filename oflags k
      (Done (res, mk_kernel (curproc k) (delete f (file_allocator k)) vs'))
| exit_namev_fault j f c res rv vs e :
    intent_of oflags <> None ->
    lowest_free (curproc k) j ->
    Z.of_nat j <> - EMFILE ->
    slab_obj_alloc (file_allocator k) = Some (f, c) ->
    mode oflags <> -1 ->
    open_namev filename oflags (p_cwd (curproc k)) (vnodes k) = (res, rv, vs) ->
    res < 0 ->
    vnode_release_opt rv vs = Crash e ->
    open_exit filename oflags k (Crash e)
| exit_null j f c res vs :
    intent_of oflags <> None ->
    lowest_free (curproc k) j ->
    Z.of_nat j <> - EMFILE ->
    slab_obj_alloc (file_allocator k) = Some (f, c) ->
    mode oflags <> -1 ->
    open_namev filename oflags (p_cwd (curproc k)) (vnodes k) = (res, None, vs) ->
    0 <= res ->
    open_exit filename oflags k (Crash NullPointer)
| exit_dangling j f c res v vs :
    intent_of oflags <> None ->
    lowest_free (curproc k) j ->
    Z.of_nat j <> - EMFILE ->
    slab_obj_alloc (file_allocator k) = Some (f, c) ->
    mode oflags <> -1 ->
    open_namev filename oflags (p_cwd (curproc k)) (vnodes k) = (res, Some v, vs) ->
    0 <= res ->
    vs !! v = None ->
    open_exit filename oflags k (Crash DanglingPointer)
| exit_eisdir j f c res v vs vn vs' :
    intent_of oflags <> None ->
    lowest_free (curproc k) j ->
    Z.of_nat j <> - EMFILE ->
    slab_obj_alloc (file_allocator k) = Some (f, c) ->
    mode oflags <> -1 ->
    open_namev filename oflags (p_cwd (curproc k)) (vnodes k) = (res, Some v, vs) ->
    0 <= res ->
    vs !! v = Some vn ->
    Z.land (vn_mode vn) S_IFDIR <> 0 ->
    mode oflags <> FMODE_READ ->
    vnode_release v vs = Done vs' ->
    open_exit filename oflags k
      (Done (- EISDIR, mk_kernel (curproc k) (delete f (file_allocator k)) vs'))
| exit_success j f c res v vs vn :
    intent_of oflags <> None ->
    lowest_free (curproc k) j ->
    Z.of_nat j <> - EMFILE ->
    slab_obj_alloc (file_allocator k) = Some (f, c) ->
    mode oflags <> -1 ->
    open_namev filename oflags (p_cwd (curproc k)) (vnodes k) = (res, Some v, vs) ->
    0 <= res ->
    vs !! v = Some vn ->
    Z.land (vn_mode vn) S_IFDIR = 0 \/ mode oflags = FMODE_READ ->
    open_exit filename oflags k
      (Done (Z.of_nat j,
             mk_kernel
               (mk_proc (p_pid (curproc k))
                        (<[j := Some f]> (p_files (curproc k)))
                        (p_cwd (curproc k)))
               (<[f := mk_file (mode oflags) 0 1 (Some v)]> (file_allocator k))
               vs)).

(** ** Invariants of the kernel state *)

(** Every descriptor in use refers to an object of the pool. *)
Definition table_live (k : kernel) : Prop :=
  forall i f, p_files (curproc k) !! i = Some (Some f) ->
              is_Some (file_allocator k !! f).

(** The number of descriptors of a table that refer to [f]. *)
Fixpoint slot_refs (f : file_ptr) (tbl : list (option file_ptr)) : nat :=
  match tbl with
  | [] => 0
  | slot :: tbl' =>
      ((if decide (slot = Some f) then 1 else 0) + slot_refs f tbl')%nat
  end.

(** Every object of the pool counts at least the references the table
    holds on it. *)
Definition refs_counted (k : kernel) : Prop :=
  forall f fo, file_allocator k !! f = Some fo ->
               Z.of_nat (slot_refs f (p_files (curproc k))) <= f_refcount fo.

(** An answer of the resolver that [do_open] can use as it does: a vnode
    it hands out is one of the vnodes, and it hands one out unless it
    fails. *)
Definition namev_answer_ok (res : Z) (rv : option vnode_ptr)
    (vs : gmap vnode_ptr vnode_t) : Prop :=
  match rv with
  | Some v => is_Some (vs !! v)
  | None => res < 0
  end.

(** The number of null slots of a table. *)
Fixpoint free_slots (tbl : list (option file_ptr)) : nat :=
  match tbl with
  | [] => 0
  | None :: tbl' => S (free_slots tbl')
  | Some _ :: tbl' => free_slots tbl'
  end.

End Open.

(** ** A concrete instance *)

(** The values the header constants have in Weenix, for running the model. *)
Definition weenix : Headers := {|
  NFILES := 32;
  O_WRONLY := 1;
  O_RDWR := 2;
  O_APPEND := 1024;
  O_TRUNC := 512;
  O_CREAT := 256;
  FMODE_READ := 1;
  FMODE_WRITE := 2;
  FMODE_APPEND := 4;
  S_IFDIR := 512;
  EINVAL := 22;
  EMFILE := 24;
  ENOMEM := 12;
  EISDIR := 21
|}.

(** Taking a reference on a vnode, as a resolver does before it hands the
    vnode to its caller. *)
Definition vref (v : vnode_ptr) (vs : gmap vnode_ptr vnode_t) : gmap vnode_ptr vnode_t :=
  alter (fun vn => mk_vnode (vn_mode vn) (vn_refcount vn + 1)) v vs.

(** A small world: one spare file object (number 7, with stale contents),
    a root directory (vnode 1), a regular file ["/motd"] (vnode 2), and a
    path ["/dev/tty9"] whose lookup takes a reference on vnode 2 and then
    fails with [-ENXIO]; every other path fails with [-ENOENT]. *)
Definition sample_ext : Collaborators := {|
  slab_obj_alloc h :=
    match h !! 7%nat with
    | None => Some (7%nat, (-1, -1))
    | Some _ => None
    end;
  open_namev filename oflags base vs :=
    if String.eqb filename "/" then (0, Some 1%nat, vref 1%nat vs)
    else if String.eqb filename "/motd" then (0, Some 2%nat, vref 2%nat vs)
    else if String.eqb filename "/dev/tty9" then (-6, Some 2%nat, vref 2%nat vs)
    else (-2, None, vs)
|}.

Definition sample_vnodes : gmap vnode_ptr vnode_t :=
  <[1%nat := mk_vnode 512 1]> (<[2%nat := mk_vnode 2048 1]> ∅).

Definition sample_files : gmap file_ptr file_t :=
  <[3%nat := mk_file 3 0 3 (Some 2%nat)]> ∅.

(** Descriptors 0, 1 and 3 are open; 2 is the lowest free one. *)
Definition sample_kernel : kernel :=
  mk_kernel
    (mk_proc 1 ([Some 3%nat; Some 3%nat; None; Some 3%nat] ++ replicate 28 None) 1%nat)
    sample_files sample_vnodes.

(** [sample_kernel] after ["/motd"] has been opened with stored mode [m]. *)
Definition opened_motd_with (m : Z) : kernel :=
  mk_kernel
    (mk_proc 1 ([Some 3%nat; Some 3%nat; Some 7%nat; Some 3%nat] ++ replicate 28 None)
             1%nat)
    (<[7%nat := mk_file m 0 1 (Some 2%nat)]> sample_files)
    (vref 2%nat sample_vnodes).

(** [sample_kernel] after ["/motd"] has been opened read-write. *)
Definition opened_motd : kernel := opened_motd_with 3.

(** The same world with every descriptor in use. *)
Definition full_kernel : kernel :=
  mk_kernel (mk_proc 1 (replicate 32 (Some 3%nat)) 1%nat)
            (<[3%nat := mk_file 3 0 32 (Some 2%nat)]> ∅) sample_vnodes.


(** [sample_kernel] with the spare file object in use on descriptor 2: the
    allocator of [sample_ext] has nothing left. *)
Definition exhausted_kernel : kernel :=
  mk_kernel
    (mk_proc 1 ([Some 3%nat; Some 3%nat; Some 7%nat; Some 3%nat] ++ replicate 28 None)
             1%nat)
    (<[7%nat := mk_file 1 0 1 (Some 1%nat)]> sample_files)
    sample_vnodes.

(** A second world: the resolver of [sample_ext], except that ["/void"]
    reports success without storing a vnode, and an allocator with two spare
    file objects, 7 and 8. *)
Definition second_ext : Collaborators := {|
  slab_obj_alloc h :=
    match h !! 7%nat with
    | None => Some (7%nat, (-1, -1))
    | Some _ =>
        match h !! 8%nat with
        | None => Some (8%nat, (0, 77))
        | Some _ => None
        end
    end;
  open_namev filename oflags base vs :=
    if String.eqb filename "/void" then (0, None, vs)
    else @open_namev sample_ext filename oflags base vs
|}.

(** [opened_motd] after ["/"] has been opened read-only in the second
    world. *)
Definition opened_both : kernel :=
  mk_kernel
    (mk_proc 1 ([Some 3%nat; Some 3%nat; Some 7%nat; Some 3%nat; Some 8%nat]
                  ++ replicate 27 None)
             1%nat)
    (<[8%nat := mk_file 1 0 1 (Some 1%nat)]>
       (<[7%nat := mk_file 3 0 1 (Some 2%nat)]> sample_files))
    (vref 1%nat (vref 2%nat sample_vnodes)).

(** * Properties *)

Section OpenFacts.

Context {hdr : Headers} {ext : Collaborators}.

(** ** The scan of the descriptor table *)

Lemma read_fd_nat (p : proc_t) (i : nat) :
  read_fd p (Z.of_nat i) =
  match p_files p !! i with
  | Some slot => Done slot
  | None => Crash OutOfBounds
  end.
Proof.
  unfold read_fd.
  destruct (Z.ltb_spec (Z.of_nat i) 0) as [Hneg | _]; [lia |].
  by rewrite Nat2Z.id.
Qed.

(** The loop entered at [i] with [n] iterations left, all inside the table:
    it stops at the first null slot, or runs out on occupied slots. *)
Lemma scan_fd_spec (p : proc_t) (n i : nat) :
  (i + n <= length (p_files p))%nat ->
  (exists j, (i <= j < i + n)%nat /\ p_files p !! j = Some None /\
             (forall l, (i <= l < j)%nat -> occupied p l) /\
             scan_fd p n (Z.of_nat i) = Done (Z.of_nat j))
  \/ ((forall l, (i <= l < i + n)%nat -> occupied p l) /\
      scan_fd p n (Z.of_nat i) = Done (- EMFILE)).
Proof.
  revert i. induction n as [| n IH]; intros i Hlen.
  - right. split; [intros l Hl; lia | reflexivity].
  - cbn [scan_fd]. rewrite read_fd_nat.
    destruct (p_files p !! i) as [slot |] eqn:Hslot.
    + destruct slot as [f |]; cbn [and_then].
      * replace (Z.of_nat i + 1) with (Z.of_nat (S i)) by lia.
        destruct (IH (S i)) as [(j & Hj & Hnull & Hbelow & Hscan) | [Hocc Hscan]];
          [lia | |].
        -- left. exists j. repeat split; try lia; try assumption.
           intros l Hl. destruct (decide (l = i)) as [-> | Hne].
           ++ by exists f.
           ++ apply Hbelow. lia.
        -- right. split; [| assumption].
           intros l Hl. destruct (decide (l = i)) as [-> | Hne].
           ++ by exists f.
           ++ apply Hocc. lia.
      * left. exists i. repeat split; try lia; try assumption.
    + apply lookup_ge_None in Hslot. lia.
Qed.

Lemma get_empty_fd_spec (p : proc_t) :
  table_ok p ->
  (exists j, lowest_free p j /\ get_empty_fd p = Done (Z.of_nat j))
  \/ (all_occupied p /\ get_empty_fd p = Done (- EMFILE)).
Proof.
  intros Hok. unfold get_empty_fd.
  destruct (scan_fd_spec p NFILES 0) as [(j & Hj & Hnull & Hbelow & Hscan) | [Hocc Hscan]].
  - unfold table_ok in Hok. lia.
  - left. exists j. split; [| exact Hscan].
    repeat split; [lia | assumption |]. intros i Hi. apply Hbelow. lia.
  - right. split; [| exact Hscan]. intros i Hi. apply Hocc. lia.
Qed.

(** The lowest free descriptor is unique, and excludes a full table. *)
Lemma lowest_free_unique (p : proc_t) (i j : nat) :
  lowest_free p i -> lowest_free p j -> i = j.
Proof.
  intros (_ & Hi & Hbi) (_ & Hj & Hbj).
  destruct (Nat.lt_total i j) as [Hlt | [Heq | Hgt]]; [| assumption |].
  - destruct (Hbj i Hlt) as [f Hf]. congruence.
  - destruct (Hbi j Hgt) as [f Hf]. congruence.
Qed.

Lemma lowest_free_not_full (p : proc_t) (j : nat) :
  lowest_free p j -> all_occupied p -> False.
Proof.
  intros (Hlt & Hnull & _) Hocc. destruct (Hocc j Hlt) as [f Hf]. congruence.
Qed.

(** ** The exits of [do_open] *)

Lemma intent_of_None_iff (oflags : Z) :
  intent_of oflags = None <->
  negb (wr oflags =? 0) && negb (rdwr oflags =? 0) = true.
Proof.
  unfold intent_of, has_bit, wr, rdwr.
  destruct (Z.land oflags O_WRONLY =? 0), (Z.land oflags O_RDWR =? 0);
    cbn; split; congruence.
Qed.

Lemma write_fd_nat (j : nat) (slot : option file_ptr) (k : kernel) :
  (j < length (p_files (curproc k)))%nat ->
  write_fd (Z.of_nat j) slot k =
  Done (with_files (<[j := slot]> (p_files (curproc k))) k).
Proof.
  intros Hj. unfold write_fd.
  destruct (Z.leb_spec 0 (Z.of_nat j)); [| lia].
  destruct (Z.ltb_spec (Z.of_nat j) (Z.of_nat (length (p_files (curproc k))))); [| lia].
  cbn. by rewrite Nat2Z.id.
Qed.

(** Publishing into a null slot and nulling it again gives the table back. *)
Lemma unpublish (tbl : list (option file_ptr)) (j : nat) (f : file_ptr) :
  tbl !! j = Some None -> <[j := None]> (<[j := Some f]> tbl) = tbl.
Proof.
  intros Hnull. rewrite list_insert_insert_eq. by apply list_insert_id.
Qed.

(** Releasing the only reference on an object that stores no vnode. *)
Lemma fput_last (f : file_ptr) (m p : Z) (k : kernel) :
  file_allocator k !! f = Some (mk_file m p 1 None) ->
  fput f k = Done (with_file_allocator (delete f (file_allocator k)) k).
Proof.
  intros Hf. unfold fput. rewrite Hf. reflexivity.
Qed.

Lemma vnode_release_present (v : vnode_ptr) (vn : vnode_t) (vs : gmap vnode_ptr vnode_t) :
  vs !! v = Some vn -> exists vs', vnode_release v vs = Done vs'.
Proof.
  intros Hv. unfold vnode_release. rewrite Hv. cbn.
  destruct (vn_refcount vn - 1 =? 0); eauto.
Qed.

Ltac kernel_fields :=
  unfold with_files, with_file_allocator, with_vnodes;
  cbn [curproc file_allocator vnodes p_pid p_files p_cwd and_then].

Lemma do_open_exit (filename : string) (oflags : Z) (k : kernel) :
  table_ok (curproc k) ->
  open_exit filename oflags k (do_open filename oflags k).
Proof.
  intros Hok. unfold do_open.
  destruct (negb (wr oflags =? 0) && negb (rdwr oflags =? 0)) eqn:Hflags.
  { apply exit_flags. by apply intent_of_None_iff. }
  assert (Hint : intent_of oflags <> None).
  { intros Hn. apply intent_of_None_iff in Hn. congruence. }
  destruct (get_empty_fd_spec (curproc k) Hok) as [(j & Hfree & ->) | [Hfull ->]];
    cbn [and_then].
  2: { rewrite Z.eqb_refl. by apply exit_emfile. }
  destruct (Z.eqb_spec (Z.of_nat j) (- EMFILE)) as [Halias | Hfd].
  { by apply exit_emfile_alias with j. }
  unfold fget_fresh.
  destruct (slab_obj_alloc (file_allocator k)) as [[f [m0 p0]] |] eqn:Halloc.
  2: { by apply exit_enomem with j. }
  pose proof Hfree as (Hlt & Hnull & _).
  destruct k as [[pid tbl cwd] slab vs0]. unfold table_ok in Hok. cbn in *.
  rewrite write_fd_nat by (cbn; lia). cbn [and_then].
  unfold with_files, with_file_allocator; cbn.
  destruct (Z.eqb_spec (mode oflags) (-1)) as [Hmode | Hmode].
  { rewrite write_fd_nat by (cbn; rewrite length_insert; lia). cbn.
    rewrite unpublish by assumption.
    erewrite fput_last by (cbn; apply lookup_insert_eq). cbn.
    rewrite delete_insert_eq. kernel_fields.
    by apply (exit_mode filename oflags (mk_kernel (mk_proc pid tbl cwd) slab vs0)
                j f (m0, p0)). }
  unfold store_file at 1. cbn. rewrite lookup_insert_eq. cbn [and_then].
  unfold with_file_allocator, set_f_mode; cbn. rewrite insert_insert_eq.
  destruct (open_namev filename oflags cwd vs0) as [[res rv] vs] eqn:Hnamev.
  unfold with_vnodes; cbn.
  destruct (Z.ltb_spec res 0) as [Hres | Hres].
  { rewrite write_fd_nat by (cbn; rewrite length_insert; lia). cbn.
    rewrite unpublish by assumption.
    destruct (vnode_release_opt rv vs) as [vs' | e] eqn:Hrel.
    - replace (match rv with Some v => vput v _ | None => Done _ end)
        with (Done (mk_kernel (mk_proc pid tbl cwd)
                              (<[f := mk_file (mode oflags) p0 1 None]> slab) vs')).
      2: { destruct rv as [v |]; cbn in Hrel.
           - unfold vput. cbn. by rewrite Hrel.
           - by inversion Hrel. }
      cbn [and_then].
      erewrite fput_last by (cbn; apply lookup_insert_eq). cbn.
      rewrite delete_insert_eq. kernel_fields.
      by apply (exit_namev filename oflags (mk_kernel (mk_proc pid tbl cwd) slab vs0)
                  j f (m0, p0) res rv vs vs').
    - destruct rv as [v |]; cbn in Hrel; [| discriminate].
      unfold vput. cbn. rewrite Hrel. cbn.
      by apply (exit_namev_fault filename oflags _ j f (m0, p0) res (Some v) vs e). }
  destruct rv as [v |].
  2: { by apply (exit_null filename oflags _ j f (m0, p0) res vs). }
  destruct (vs !! v) as [vn |] eqn:Hv.
  2: { by apply (exit_dangling filename oflags _ j f (m0, p0) res v vs). }
  destruct (Z.eqb_spec (Z.land (vn_mode vn) S_IFDIR) 0) as [Hdir | Hdir];
    [| destruct (Z.eqb_spec (mode oflags) FMODE_READ) as [Hrd | Hrd]]; cbn [negb andb].
  3: { rewrite write_fd_nat by (cbn; rewrite length_insert; lia). cbn.
       rewrite unpublish by assumption.
       destruct (vnode_release_present v vn vs Hv) as [vs' Hrel].
       unfold vput. cbn. rewrite Hrel. cbn.
       erewrite fput_last by (cbn; apply lookup_insert_eq). cbn.
       rewrite delete_insert_eq. kernel_fields.
       by apply (exit_eisdir filename oflags (mk_kernel (mk_proc pid tbl cwd) slab vs0)
                   j f (m0, p0) res v vs vn vs'). }
  all: unfold store_file; cbn; rewrite lookup_insert_eq; cbn;
    rewrite lookup_insert_eq; cbn; rewrite !insert_insert_eq;
    apply (exit_success filename oflags (mk_kernel (mk_proc pid tbl cwd) slab vs0)
             j f (m0, p0) res v vs vn); auto.
Qed.

(** ** The derived mode *)

Lemma has_bit_false (oflags bit : Z) :
  has_bit oflags bit = false <-> Z.land oflags bit = 0.
Proof.
  unfold has_bit. destruct (Z.eqb_spec (Z.land oflags bit) 0); cbn; split;
    congruence.
Qed.

Lemma has_bit_true (oflags bit : Z) :
  has_bit oflags bit = true <-> Z.land oflags bit <> 0.
Proof.
  unfold has_bit. destruct (Z.eqb_spec (Z.land oflags bit) 0); cbn; split;
    congruence.
Qed.

(** The code's derivation agrees with the specification's table of modes. *)
Lemma mode_intent (oflags : Z) (i : intent) :
  intent_of oflags = Some i ->
  mode oflags = intent_fmode i (has_bit oflags O_APPEND).
Proof.
  unfold intent_of, mode, rd, intent_fmode, has_bit, append, wr, rdwr.
  destruct (Z.land oflags O_WRONLY =? 0), (Z.land oflags O_RDWR =? 0);
    cbn; intros Hi; inversion Hi; subst i;
    destruct (Z.land oflags O_APPEND =? 0); cbn;
    by rewrite ?Z.lor_0_r.
Qed.

Lemma intent_fmode_nonneg (i : intent) (app : bool) :
  fmode_nonneg -> 0 <= intent_fmode i app.
Proof.
  intros (Hr & Hw & Ha). unfold intent_fmode.
  destruct i, app; rewrite ?Z.lor_nonneg; lia.
Qed.

Lemma mode_set (oflags : Z) :
  fmode_nonneg -> intent_of oflags <> None -> mode oflags <> -1.
Proof.
  intros Hpos Hint.
  destruct (intent_of oflags) as [i |] eqn:Hi; [| congruence].
  rewrite (mode_intent oflags i Hi).
  pose proof (intent_fmode_nonneg i (has_bit oflags O_APPEND) Hpos). lia.
Qed.

(** ** What a returned value tells about the exit taken *)

(** A non-negative result is the success exit. *)
Lemma do_open_success_inv (filename : string) (oflags : Z) (k k' : kernel) (r : Z) :
  table_ok (curproc k) ->
  errno_positive ->
  do_open filename oflags k = Done (r, k') ->
  0 <= r ->
  exists j f c res v vs vn,
    intent_of oflags <> None /\
    lowest_free (curproc k) j /\
    slab_obj_alloc (file_allocator k) = Some (f, c) /\
    open_namev filename oflags (p_cwd (curproc k)) (vnodes k) = (res, Some v, vs) /\
    0 <= res /\
    vs !! v = Some vn /\
    (Z.land (vn_mode vn) S_IFDIR = 0 \/ mode oflags = FMODE_READ) /\
    r = Z.of_nat j /\
    k' = mk_kernel
           (mk_proc (p_pid (curproc k))
                    (<[j := Some f]> (p_files (curproc k)))
                    (p_cwd (curproc k)))
           (<[f := mk_file (mode oflags) 0 1 (Some v)]> (file_allocator k))
           vs.
Proof.
  intros Hok (Hinval & Hmfile & Hnomem & Hisdir) Hrun Hr.
  pose proof (do_open_exit filename oflags k Hok) as Hex.
  rewrite Hrun in Hex.
  inversion Hex; subst; try lia.
  exists j, f, c, res, v, vs, vn. by repeat (split; [done |]).
Qed.

(** A negative result is an error exit: the process is as before, the pool
    of file objects is as before up to the object the allocator handed out,
    and the vnodes are as before or as the resolver left them, with the
    reference it handed out released. *)
Lemma do_open_error_inv (filename : string) (oflags : Z) (k k' : kernel) (r : Z) :
  table_ok (curproc k) ->
  do_open filename oflags k = Done (r, k') ->
  r < 0 ->
  curproc k' = curproc k /\
  (file_allocator k' = file_allocator k \/
   exists f c, slab_obj_alloc (file_allocator k) = Some (f, c) /\
               file_allocator k' = delete f (file_allocator k)) /\
  (vnodes k' = vnodes k \/
   exists res rv vs,
     open_namev filename oflags (p_cwd (curproc k)) (vnodes k) = (res, rv, vs) /\
     vnode_release_opt rv vs = Done (vnodes k')).
Proof.
  intros Hok Hrun Hr.
  pose proof (do_open_exit filename oflags k Hok) as Hex.
  rewrite Hrun in Hex.
  inversion Hex; subst; cbn; try lia.
  all: split; [reflexivity |]; split; eauto 8.
Qed.

Lemma fresh_alloc_delete (k : kernel) (f : file_ptr) (c : Z * Z) :
  fresh_alloc k ->
  slab_obj_alloc (file_allocator k) = Some (f, c) ->
  delete f (file_allocator k) = file_allocator k.
Proof.
  unfold fresh_alloc. intros Hfresh Halloc. rewrite Halloc in Hfresh.
  by apply delete_id.
Qed.

(** ** Running [do_open] forward from what the call meets *)

(** Two descriptions of the same call name the same descriptor, object and
    resolver answer; a full table has no lowest free descriptor. *)
Ltac same_call :=
  repeat match goal with
  | H1 : lowest_free ?p ?i, H2 : lowest_free ?p ?j |- _ =>
      pose proof (lowest_free_unique p i j H1 H2); subst i; clear H1
  | H1 : lowest_free ?p ?j, H2 : all_occupied ?p |- _ =>
      destruct (lowest_free_not_full p j H1 H2)
  | H1 : ?x = _, H2 : ?x = _ |- _ =>
      rewrite H1 in H2; inversion H2; subst; clear H2
  end.

Lemma do_open_full (filename : string) (oflags : Z) (k : kernel) :
  table_ok (curproc k) ->
  intent_of oflags <> None ->
  all_occupied (curproc k) ->
  do_open filename oflags k = Done (- EMFILE, k).
Proof.
  intros Hok Hint Hfull.
  pose proof (do_open_exit filename oflags k Hok) as Hex.
  inversion Hex; same_call; congruence.
Qed.

Lemma do_open_namev_error (filename : string) (oflags : Z) (k : kernel)
    (j : nat) (f : file_ptr) (c : Z * Z)
    (res : Z) (rv : option vnode_ptr) (vs vs' : gmap vnode_ptr vnode_t) :
  table_ok (curproc k) ->
  intent_of oflags <> None ->
  lowest_free (curproc k) j ->
  Z.of_nat j <> - EMFILE ->
  slab_obj_alloc (file_allocator k) = Some (f, c) ->
  mode oflags <> -1 ->
  open_namev filename oflags (p_cwd (curproc k)) (vnodes k) = (res, rv, vs) ->
  res < 0 ->
  vnode_release_opt rv vs = Done vs' ->
  do_open filename oflags k =
  Done (res, mk_kernel (curproc k) (delete f (file_allocator k)) vs').
Proof.
  intros Hok Hint Hfree Hfd Halloc Hmode Hnamev Hres Hrel.
  pose proof (do_open_exit filename oflags k Hok) as Hex.
  inversion Hex; same_call; try congruence; try lia.
Qed.

Lemma do_open_eisdir (filename : string) (oflags : Z) (k : kernel)
    (j : nat) (f : file_ptr) (c : Z * Z)
    (res : Z) (v : vnode_ptr) (vn : vnode_t) (vs vs' : gmap vnode_ptr vnode_t) :
  table_ok (curproc k) ->
  intent_of oflags <> None ->
  lowest_free (curproc k) j ->
  Z.of_nat j <> - EMFILE ->
  slab_obj_alloc (file_allocator k) = Some (f, c) ->
  mode oflags <> -1 ->
  open_namev filename oflags (p_cwd (curproc k)) (vnodes k) = (res, Some v, vs) ->
  0 <= res ->
  vs !! v = Some vn ->
  Z.land (vn_mode vn) S_IFDIR <> 0 ->
  mode oflags <> FMODE_READ ->
  vnode_release v vs = Done vs' ->
  do_open filename oflags k =
  Done (- EISDIR, mk_kernel (curproc k) (delete f (file_allocator k)) vs').
Proof.
  intros Hok Hint Hfree Hfd Halloc Hmode Hnamev Hres Hv Hdir Hrd Hrel.
  pose proof (do_open_exit filename oflags k Hok) as Hex.
  inversion Hex; same_call; try congruence; try lia.
Qed.

Lemma do_open_success (filename : string) (oflags : Z) (k : kernel)
    (j : nat) (f : file_ptr) (c : Z * Z)
    (res : Z) (v : vnode_ptr) (vn : vnode_t) (vs : gmap vnode_ptr vnode_t) :
  table_ok (curproc k) ->
  intent_of oflags <> None ->
  lowest_free (curproc k) j ->
  Z.of_nat j <> - EMFILE ->
  slab_obj_alloc (file_allocator k) = Some (f, c) ->
  mode oflags <> -1 ->
  open_namev filename oflags (p_cwd (curproc k)) (vnodes k) = (res, Some v, vs) ->
  0 <= res ->
  vs !! v = Some vn ->
  Z.land (vn_mode vn) S_IFDIR = 0 \/ mode oflags = FMODE_READ ->
  do_open filename oflags k =
  Done (Z.of_nat j,
        mk_kernel
          (mk_proc (p_pid (curproc k))
                   (<[j := Some f]> (p_files (curproc k)))
                   (p_cwd (curproc k)))
          (<[f := mk_file (mode oflags) 0 1 (Some v)]> (file_allocator k))
          vs).
Proof.
  intros Hok Hint Hfree Hfd Halloc Hmode Hnamev Hres Hv Hplain.
  pose proof (do_open_exit filename oflags k Hok) as Hex.
  inversion Hex; same_call; try congruence; try lia.
Qed.

Lemma intent_of_valid (oflags : Z) :
  intent_of oflags <> None <->
  ~ (Z.land oflags O_WRONLY <> 0 /\ Z.land oflags O_RDWR <> 0).
Proof.
  unfold intent_of, has_bit.
  destruct (Z.eqb_spec (Z.land oflags O_WRONLY) 0),
           (Z.eqb_spec (Z.land oflags O_RDWR) 0); cbn; split; intros H;
    try congruence; tauto.
Qed.

Lemma vnode_release_opt_fault (rv : option vnode_ptr)
    (vs : gmap vnode_ptr vnode_t) (e : fault) :
  vnode_release_opt rv vs = Crash e -> e = DanglingPointer.
Proof.
  destruct rv as [v |]; cbn; [| discriminate].
  unfold vnode_release. destruct (vs !! v) as [vn |]; cbn.
  - destruct (vn_refcount vn - 1 =? 0); discriminate.
  - congruence.
Qed.

(** ** The claims *)

(** C4. Whenever both the write-only bit and the read-write bit of the flags
    are set, [do_open] returns [-EINVAL] and the whole kernel state (the
    descriptor table, the pool of file objects, the vnodes) is the one it
    was called in: nothing has been acquired. *)
Theorem do_open_conflicting_intent (filename : string) (oflags : Z) (k : kernel) :
  Z.land oflags O_WRONLY <> 0 ->
  Z.land oflags O_RDWR <> 0 ->
  do_open filename oflags k = Done (- EINVAL, k).
Proof.
  intros Hwr Hrdwr. unfold do_open, wr, rdwr.
  destruct (Z.eqb_spec (Z.land oflags O_WRONLY) 0); [contradiction |].
  destruct (Z.eqb_spec (Z.land oflags O_RDWR) 0); [contradiction |].
  reflexivity.
Qed.

(** C7. When neither the write-only bit nor the read-write bit is set, the
    mode [do_open] derives is [FMODE_READ], OR'd with [FMODE_APPEND] exactly
    when the append bit is set; and that is the [f_mode] of the file object
    in the slot of every descriptor such a call returns. *)
Theorem do_open_zero_intent_read_only (oflags : Z) :
  Z.land oflags O_WRONLY = 0 ->
  Z.land oflags O_RDWR = 0 ->
  mode oflags =
    (if Z.land oflags O_APPEND =? 0 then FMODE_READ
     else Z.lor FMODE_READ FMODE_APPEND) /\
  forall (filename : string) (k k' : kernel) (r : Z),
    table_ok (curproc k) ->
    errno_positive ->
    do_open filename oflags k = Done (r, k') ->
    0 <= r ->
    exists f fo,
      p_files (curproc k') !! Z.to_nat r = Some (Some f) /\
      file_allocator k' !! f = Some fo /\
      f_mode fo =
        (if Z.land oflags O_APPEND =? 0 then FMODE_READ
         else Z.lor FMODE_READ FMODE_APPEND).
Proof.
  intros Hwr Hrdwr.
  assert (Hmode : mode oflags =
    (if Z.land oflags O_APPEND =? 0 then FMODE_READ
     else Z.lor FMODE_READ FMODE_APPEND)).
  { unfold mode, rd, append, wr, rdwr. rewrite Hwr, Hrdwr. cbn.
    by destruct (Z.land oflags O_APPEND =? 0). }
  split; [exact Hmode |].
  intros filename k k' r Hok Herrno Hrun Hr.
  destruct (do_open_success_inv filename oflags k k' r Hok Herrno Hrun Hr)
    as (j & f & c & res & v & vs & vn & _ & Hfree & _ & _ & _ & _ & _ & -> & ->).
  exists f, (mk_file (mode oflags) 0 1 (Some v)). cbn.
  rewrite Nat2Z.id. destruct Hfree as (Hlt & _ & _).
  split; [| split; [apply lookup_insert_eq | exact Hmode]].
  apply list_lookup_insert_eq. unfold table_ok in Hok. lia.
Qed.

(** C8. For flags that pass the first validation (not both the write-only
    and the read-write bit set), the local [mode] has been given a value
    other than the sentinel [-1] when the test [mode == -1] is reached: the
    defensive branch is not taken. *)
Theorem mode_sentinel_unreachable (oflags : Z) :
  fmode_nonneg ->
  ~ (Z.land oflags O_WRONLY <> 0 /\ Z.land oflags O_RDWR <> 0) ->
  mode oflags <> -1.
Proof.
  intros Hpos Hvalid. apply mode_set; [assumption |].
  by apply intent_of_valid.
Qed.

(** C9. On a table of [NFILES] entries [get_empty_fd] returns [-EMFILE] or
    an index in [0, NFILES); a result other than [-EMFILE] is an index of
    the table, and no run of [do_open] accesses the table out of bounds. *)
Theorem get_empty_fd_in_bounds (k : kernel) :
  table_ok (curproc k) ->
  (exists r, get_empty_fd (curproc k) = Done r /\
             (r = - EMFILE \/ 0 <= r < Z.of_nat NFILES) /\
             (r <> - EMFILE ->
              0 <= r < Z.of_nat (length (p_files (curproc k))))) /\
  forall (filename : string) (oflags : Z),
    do_open filename oflags k <> Crash OutOfBounds.
Proof.
  intros Hok. split.
  - destruct (get_empty_fd_spec (curproc k) Hok)
      as [(j & (Hlt & _ & _) & Hget) | [_ Hget]].
    + exists (Z.of_nat j). unfold table_ok in Hok.
      split; [exact Hget |]. split; [right |]; lia.
    + exists (- EMFILE). split; [exact Hget |]. split; [by left | congruence].
  - intros filename oflags Hcrash.
    pose proof (do_open_exit filename oflags k Hok) as Hex.
    rewrite Hcrash in Hex. inversion Hex as
      [ | | | | | | j f c res rv vs e _ _ _ _ _ _ _ Hrel Heq | | | | ].
    apply vnode_release_opt_fault in Hrel. congruence.
Qed.

(** C5, as the code has it. If some slot of the table is null,
    [get_empty_fd] returns the lowest index in [0, NFILES) whose slot is
    null (it only reads the table: it returns nothing but the index).  If
    every slot is occupied, [get_empty_fd] returns [-EMFILE], and [do_open]
    called with flags that do not set both the write-only and the
    read-write bit returns [-EMFILE] in the state it was called in. *)
Theorem get_empty_fd_lowest_or_exhausted (k : kernel) :
  table_ok (curproc k) ->
  (forall i, p_files (curproc k) !! i = Some None ->
     exists j, get_empty_fd (curproc k) = Done (Z.of_nat j) /\
               lowest_free (curproc k) j /\ (j <= i)%nat) /\
  (all_occupied (curproc k) ->
     get_empty_fd (curproc k) = Done (- EMFILE) /\
     forall (filename : string) (oflags : Z),
       ~ (Z.land oflags O_WRONLY <> 0 /\ Z.land oflags O_RDWR <> 0) ->
       do_open filename oflags k = Done (- EMFILE, k)).
Proof.
  intros Hok. split.
  - intros i Hnull.
    destruct (get_empty_fd_spec (curproc k) Hok) as [(j & Hfree & Hget) | [Hfull _]].
    + exists j. split; [exact Hget |]. split; [exact Hfree |].
      destruct Hfree as (_ & _ & Hbelow).
      destruct (Nat.le_gt_cases j i) as [Hle | Hgt]; [exact Hle |].
      destruct (Hbelow i Hgt) as [f Hf]. congruence.
    + assert (Hi : (i < NFILES)%nat).
      { unfold table_ok in Hok. rewrite <- Hok. by eapply lookup_lt_Some. }
      destruct (Hfull i Hi) as [f Hf]. congruence.
  - intros Hfull. split.
    + destruct (get_empty_fd_spec (curproc k) Hok) as [(j & Hfree & _) | [_ Hget]].
      * destruct (lowest_free_not_full _ _ Hfree Hfull).
      * exact Hget.
    + intros filename oflags Hvalid.
      apply do_open_full; [assumption | by apply intent_of_valid | assumption].
Qed.

(** C6. When the call reaches the resolver and [open_namev] fails with
    [res < 0], [do_open] returns that very [res]; the process (so the
    descriptor slot, null again) and the pool of file objects are as before
    the call, and the vnodes are as the resolver left them with the vnode it
    produced, if any, released once. *)
Theorem do_open_resolver_error_verbatim (filename : string) (oflags : Z) (k : kernel)
    (j : nat) (f : file_ptr) (c : Z * Z)
    (res : Z) (rv : option vnode_ptr) (vs vs' : gmap vnode_ptr vnode_t) :
  table_ok (curproc k) ->
  0 < EMFILE ->
  fmode_nonneg ->
  fresh_alloc k ->
  ~ (Z.land oflags O_WRONLY <> 0 /\ Z.land oflags O_RDWR <> 0) ->
  lowest_free (curproc k) j ->
  slab_obj_alloc (file_allocator k) = Some (f, c) ->
  open_namev filename oflags (p_cwd (curproc k)) (vnodes k) = (res, rv, vs) ->
  res < 0 ->
  vnode_release_opt rv vs = Done vs' ->
  do_open filename oflags k =
  Done (res, mk_kernel (curproc k) (file_allocator k) vs').
Proof.
  intros Hok Hmfile Hpos Hfresh Hvalid Hfree Halloc Hnamev Hres Hrel.
  apply intent_of_valid in Hvalid.
  rewrite (do_open_namev_error filename oflags k j f c res rv vs vs');
    try assumption; [| lia | by apply mode_set].
  by rewrite (fresh_alloc_delete k f c Hfresh Halloc).
Qed.

(** C1. Whenever [do_open] returns an error (a negative value), the process
    is exactly as before the call, descriptor table included; the pool of
    file objects is exactly as before the call, the object obtained from the
    allocator being destroyed; and the vnodes are as before the call or, if
    the resolver ran, as the resolver left them with the vnode it produced
    released once. *)
Theorem do_open_error_no_trace (filename : string) (oflags : Z) (k k' : kernel) (r : Z) :
  table_ok (curproc k) ->
  fresh_alloc k ->
  do_open filename oflags k = Done (r, k') ->
  r < 0 ->
  curproc k' = curproc k /\
  file_allocator k' = file_allocator k /\
  (vnodes k' = vnodes k \/
   exists res rv vs,
     open_namev filename oflags (p_cwd (curproc k)) (vnodes k) = (res, rv, vs) /\
     vnode_release_opt rv vs = Done (vnodes k')).
Proof.
  intros Hok Hfresh Hrun Hr.
  destruct (do_open_error_inv filename oflags k k' r Hok Hrun Hr)
    as (Hproc & Hpool & Hvn).
  split; [exact Hproc |]. split; [| exact Hvn].
  destruct Hpool as [Hsame | (f & c & Halloc & Hdel)]; [exact Hsame |].
  rewrite Hdel. by eapply fresh_alloc_delete.
Qed.

(** C2. For flags that select one base intent, on a path that the resolver
    resolves to a vnode that is not a directory, with a free descriptor and
    a file object available, [do_open] returns the lowest free descriptor;
    its slot holds the new file object, whose [f_mode] is the OR of the mode
    bits of the intent and of [FMODE_APPEND] when append is requested, whose
    [f_vnode] is the resolved vnode and whose [f_pos] is 0. *)
Theorem do_open_regular_file (filename : string) (oflags : Z) (k : kernel)
    (i : intent) (j : nat) (f : file_ptr) (c : Z * Z)
    (res : Z) (v : vnode_ptr) (vn : vnode_t) (vs : gmap vnode_ptr vnode_t) :
  table_ok (curproc k) ->
  0 < EMFILE ->
  fmode_nonneg ->
  intent_of oflags = Some i ->
  lowest_free (curproc k) j ->
  slab_obj_alloc (file_allocator k) = Some (f, c) ->
  open_namev filename oflags (p_cwd (curproc k)) (vnodes k) = (res, Some v, vs) ->
  0 <= res ->
  vs !! v = Some vn ->
  Z.land (vn_mode vn) S_IFDIR = 0 ->
  exists k',
    do_open filename oflags k = Done (Z.of_nat j, k') /\
    p_files (curproc k') !! j = Some (Some f) /\
    file_allocator k' !! f =
      Some (mk_file (intent_fmode i (has_bit oflags O_APPEND)) 0 1 (Some v)).
Proof.
  intros Hok Hmfile Hpos Hi Hfree Halloc Hnamev Hres Hv Hreg.
  assert (Hint : intent_of oflags <> None) by congruence.
  eexists. split.
  - apply (do_open_success filename oflags k j f c res v vn vs);
      try assumption; [lia | by apply mode_set | by left].
  - cbn. rewrite <- (mode_intent oflags i Hi).
    split; [| apply lookup_insert_eq].
    apply list_lookup_insert_eq. destruct Hfree as (Hlt & _ & _).
    unfold table_ok in Hok. lia.
Qed.

(** The part of C3 the code does have: on a directory, a derived mode that
    includes write access ends in [-EISDIR] after the full unwind. *)
Lemma do_open_directory_write (filename : string) (oflags : Z) (k : kernel)
    (j : nat) (f : file_ptr) (c : Z * Z)
    (res : Z) (v : vnode_ptr) (vn : vnode_t) (vs vs' : gmap vnode_ptr vnode_t) :
  table_ok (curproc k) ->
  0 < EMFILE ->
  fmode_nonneg ->
  fresh_alloc k ->
  Z.land FMODE_READ FMODE_WRITE = 0 ->
  intent_of oflags <> None ->
  Z.land (mode oflags) FMODE_WRITE <> 0 ->
  lowest_free (curproc k) j ->
  slab_obj_alloc (file_allocator k) = Some (f, c) ->
  open_namev filename oflags (p_cwd (curproc k)) (vnodes k) = (res, Some v, vs) ->
  0 <= res ->
  vs !! v = Some vn ->
  Z.land (vn_mode vn) S_IFDIR <> 0 ->
  vnode_release v vs = Done vs' ->
  do_open filename oflags k =
  Done (- EISDIR, mk_kernel (curproc k) (file_allocator k) vs').
Proof.
  intros Hok Hmfile Hpos Hfresh Hbits Hint Hwrite Hfree Halloc Hnamev Hres Hv Hdir Hrel.
  rewrite (do_open_eisdir filename oflags k j f c res v vn vs vs');
    try assumption; [| lia | by apply mode_set | congruence].
  by rewrite (fresh_alloc_delete k f c Hfresh Halloc).
Qed.

(** Likewise: on a directory, the derived mode [FMODE_READ] succeeds. *)
Lemma do_open_directory_read (filename : string) (oflags : Z) (k : kernel)
    (j : nat) (f : file_ptr) (c : Z * Z)
    (res : Z) (v : vnode_ptr) (vn : vnode_t) (vs : gmap vnode_ptr vnode_t) :
  table_ok (curproc k) ->
  0 < EMFILE ->
  fmode_nonneg ->
  intent_of oflags <> None ->
  mode oflags = FMODE_READ ->
  lowest_free (curproc k) j ->
  slab_obj_alloc (file_allocator k) = Some (f, c) ->
  open_namev filename oflags (p_cwd (curproc k)) (vnodes k) = (res, Some v, vs) ->
  0 <= res ->
  vs !! v = Some vn ->
  exists k', do_open filename oflags k = Done (Z.of_nat j, k').
Proof.
  intros Hok Hmfile Hpos Hint Hmode Hfree Halloc Hnamev Hres Hv.
  eexists. apply (do_open_success filename oflags k j f c res v vn vs);
    try assumption; [lia | by apply mode_set | by right].
Qed.

(** C3, where the code departs from it. On a directory, a read-only request
    with the append bit derives the mode [FMODE_READ | FMODE_APPEND], which
    has no write access, and yet [do_open] unwinds and returns [-EISDIR]:
    the test is [mode != FMODE_READ]. *)
Theorem do_open_directory_read_append (filename : string) (oflags : Z) (k : kernel)
    (j : nat) (f : file_ptr) (c : Z * Z)
    (res : Z) (v : vnode_ptr) (vn : vnode_t) (vs vs' : gmap vnode_ptr vnode_t) :
  table_ok (curproc k) ->
  0 < EMFILE ->
  fmode_nonneg ->
  fresh_alloc k ->
  Z.lor FMODE_READ FMODE_APPEND <> FMODE_READ ->
  Z.land (Z.lor FMODE_READ FMODE_APPEND) FMODE_WRITE = 0 ->
  intent_of oflags = Some ReadOnly ->
  has_bit oflags O_APPEND = true ->
  lowest_free (curproc k) j ->
  slab_obj_alloc (file_allocator k) = Some (f, c) ->
  open_namev filename oflags (p_cwd (curproc k)) (vnodes k) = (res, Some v, vs) ->
  0 <= res ->
  vs !! v = Some vn ->
  Z.land (vn_mode vn) S_IFDIR <> 0 ->
  vnode_release v vs = Done vs' ->
  Z.land (mode oflags) FMODE_WRITE = 0 /\
  do_open filename oflags k =
  Done (- EISDIR, mk_kernel (curproc k) (file_allocator k) vs').
Proof.
  intros Hok Hmfile Hpos Hfresh Hne Hnowrite Hi Happ Hfree Halloc Hnamev Hres Hv
    Hdir Hrel.
  assert (Hmode : mode oflags = Z.lor FMODE_READ FMODE_APPEND).
  { rewrite (mode_intent oflags ReadOnly Hi), Happ. reflexivity. }
  assert (Hint : intent_of oflags <> None) by congruence.
  split; [by rewrite Hmode |].
  rewrite (do_open_eisdir filename oflags k j f c res v vn vs vs');
    try assumption; [| lia | by apply mode_set | congruence].
  by rewrite (fresh_alloc_delete k f c Hfresh Halloc).
Qed.

(** C10. Whatever [do_open] returns, the process keeps its pid and its
    working directory, and every slot of the table other than the one
    [get_empty_fd] designates is as before; when the call succeeds it
    returns that descriptor, and the table is the old one with that slot
    holding the file object from the allocator, fully initialized. *)
Theorem do_open_frame (filename : string) (oflags : Z) (k k' : kernel) (r : Z) :
  table_ok (curproc k) ->
  errno_positive ->
  do_open filename oflags k = Done (r, k') ->
  p_pid (curproc k') = p_pid (curproc k) /\
  p_cwd (curproc k') = p_cwd (curproc k) /\
  exists fd,
    get_empty_fd (curproc k) = Done fd /\
    (forall i : nat, Z.of_nat i <> fd ->
       p_files (curproc k') !! i = p_files (curproc k) !! i) /\
    (0 <= r ->
     r = fd /\
     exists f c v,
       slab_obj_alloc (file_allocator k) = Some (f, c) /\
       p_files (curproc k') = <[Z.to_nat fd := Some f]> (p_files (curproc k)) /\
       file_allocator k' !! f = Some (mk_file (mode oflags) 0 1 (Some v))).
Proof.
  intros Hok Herrno Hrun.
  destruct (Z.lt_ge_cases r 0) as [Hneg | Hpos].
  - destruct (do_open_error_inv filename oflags k k' r Hok Hrun Hneg) as (Hproc & _).
    rewrite Hproc. split; [reflexivity |]. split; [reflexivity |].
    destruct (get_empty_fd_spec (curproc k) Hok) as [(j & _ & Hget) | [_ Hget]];
      eexists; (split; [exact Hget |]); (split; [reflexivity | lia]).
  - destruct (do_open_success_inv filename oflags k k' r Hok Herrno Hrun Hpos)
      as (j & f & c & res & v & vs & vn & _ & Hfree & Halloc & _ & _ & _ & _ & -> & ->).
    cbn. split; [reflexivity |]. split; [reflexivity |].
    exists (Z.of_nat j). split; [| split].
    + destruct (get_empty_fd_spec (curproc k) Hok) as [(j' & Hfree' & Hget) | [Hfull _]].
      * by rewrite (lowest_free_unique _ _ _ Hfree Hfree').
      * destruct (lowest_free_not_full _ _ Hfree Hfull).
    + intros i Hi. apply list_lookup_insert_ne. lia.
    + intros _. split; [reflexivity |]. exists f, c, v.
      rewrite Nat2Z.id. split; [exact Halloc |]. split; [reflexivity |].
      apply lookup_insert_eq.
Qed.

(** ** Further properties of [get_empty_fd] and [do_open] *)

(** A returning call either unwound everything it had published, or took
    the success exit. *)
Lemma do_open_done_shape (filename : string) (oflags : Z) (k k' : kernel) (r : Z) :
  table_ok (curproc k) ->
  do_open filename oflags k = Done (r, k') ->
  (curproc k' = curproc k /\
   (file_allocator k' = file_allocator k \/
    exists f c, slab_obj_alloc (file_allocator k) = Some (f, c) /\
                file_allocator k' = delete f (file_allocator k)))
  \/
  (exists j f c res v vs vn,
     lowest_free (curproc k) j /\
     slab_obj_alloc (file_allocator k) = Some (f, c) /\
     open_namev filename oflags (p_cwd (curproc k)) (vnodes k) = (res, Some v, vs) /\
     0 <= res /\
     vs !! v = Some vn /\
     r = Z.of_nat j /\
     k' = mk_kernel
            (mk_proc (p_pid (curproc k))
                     (<[j := Some f]> (p_files (curproc k)))
                     (p_cwd (curproc k)))
            (<[f := mk_file (mode oflags) 0 1 (Some v)]> (file_allocator k))
            vs).
Proof.
  intros Hok Hrun.
  pose proof (do_open_exit filename oflags k Hok) as Hex.
  rewrite Hrun in Hex.
  inversion Hex; subst; cbn.
  all: try (left; split; [reflexivity |]; eauto 8; fail).
  right. exists j, f, c, res, v, vs, vn. by repeat (split; [done |]).
Qed.

Lemma slot_refs_insert (f f' : file_ptr) (tbl : list (option file_ptr)) (j : nat) :
  tbl !! j = Some None ->
  slot_refs f' (<[j := Some f]> tbl) =
  (slot_refs f' tbl + (if decide (f' = f) then 1 else 0))%nat.
Proof.
  revert j. induction tbl as [| slot tbl IH]; intros j Hj; [discriminate |].
  destruct j as [| j].
  - inversion Hj; subst slot.
    change (<[0%nat := Some f]> (None :: tbl)) with (Some f :: tbl).
    cbn [slot_refs].
    destruct (decide (None = Some f')) as [Hbad | _]; [discriminate |].
    destruct (decide (Some f = Some f')) as [Heq | Hne];
      destruct (decide (f' = f)) as [Heq' | Hne']; try lia; congruence.
  - change (<[S j := Some f]> (slot :: tbl)) with (slot :: <[j := Some f]> tbl).
    cbn [slot_refs]. rewrite (IH j Hj). lia.
Qed.

Lemma slot_refs_none (f : file_ptr) (tbl : list (option file_ptr)) :
  (forall i, tbl !! i <> Some (Some f)) -> slot_refs f tbl = 0%nat.
Proof.
  induction tbl as [| slot tbl IH]; intros Hno; [reflexivity |]. cbn.
  destruct (decide (slot = Some f)) as [-> | _].
  - destruct (Hno 0%nat). reflexivity.
  - rewrite IH; [reflexivity |]. intros i. apply (Hno (S i)).
Qed.

Lemma fresh_not_in_table (k : kernel) (f : file_ptr) (c : Z * Z) :
  fresh_alloc k ->
  table_live k ->
  slab_obj_alloc (file_allocator k) = Some (f, c) ->
  forall i, p_files (curproc k) !! i <> Some (Some f).
Proof.
  unfold fresh_alloc. intros Hfresh Hlive Halloc i Hi. rewrite Halloc in Hfresh.
  destruct (Hlive i f Hi) as [fo Hfo]. congruence.
Qed.

(** X1. [get_empty_fd], lines 22-35: with a positive [EMFILE] the error value
    cannot be mistaken for a descriptor: on a table of [NFILES] entries
    [get_empty_fd] returns [-EMFILE] exactly when every slot is occupied. *)
Theorem get_empty_fd_emfile_iff_full (p : proc_t) :
  table_ok p ->
  0 < EMFILE ->
  get_empty_fd p = Done (- EMFILE) <-> all_occupied p.
Proof.
  intros Hok Hmfile.
  destruct (get_empty_fd_spec p Hok) as [(j & Hfree & Hget) | [Hfull Hget]].
  - split.
    + rewrite Hget. intros Heq. inversion Heq. lia.
    + intros Hfull. destruct (lowest_free_not_full p j Hfree Hfull).
  - split; [by intros _ | by intros _].
Qed.

(** X2. [do_open], lines 98-102: with valid flags and a free descriptor, a
    failing allocation makes [do_open] return [-ENOMEM]; nothing has been
    written: the whole kernel state is as it was, and the resolver has not
    run. *)
Theorem do_open_alloc_failure (filename : string) (oflags : Z) (k : kernel) (j : nat) :
  table_ok (curproc k) ->
  0 < EMFILE ->
  ~ (Z.land oflags O_WRONLY <> 0 /\ Z.land oflags O_RDWR <> 0) ->
  lowest_free (curproc k) j ->
  slab_obj_alloc (file_allocator k) = None ->
  do_open filename oflags k = Done (- ENOMEM, k).
Proof.
  intros Hok Hmfile Hvalid Hfree Halloc.
  apply intent_of_valid in Hvalid.
  pose proof (do_open_exit filename oflags k Hok) as Hex.
  inversion Hex; same_call; try congruence; try lia.
Qed.

(** X3. [do_open], lines 140-158: the only faults of a call come from the
    resolver's answer.  If every vnode the resolver hands out is one of the
    vnodes, and it hands one out whenever its status is not negative, the
    call returns. *)
Theorem do_open_returns (filename : string) (oflags : Z) (k : kernel) :
  table_ok (curproc k) ->
  (forall res rv vs,
     open_namev filename oflags (p_cwd (curproc k)) (vnodes k) = (res, rv, vs) ->
     namev_answer_ok res rv vs) ->
  exists r k', do_open filename oflags k = Done (r, k').
Proof.
  intros Hok Hanswer.
  pose proof (do_open_exit filename oflags k Hok) as Hex.
  inversion Hex as
    [ | | | | | | j f c res rv vs e _ _ _ _ _ Hnamev _ Hrel Heq
      | j f c res vs _ _ _ _ _ Hnamev Hres Heq
      | j f c res v vs _ _ _ _ _ Hnamev _ Hv Heq | | ]; eauto.
  - specialize (Hanswer _ _ _ Hnamev). destruct rv as [v |]; [| discriminate].
    destruct Hanswer as [vn Hv]. cbn in Hrel.
    destruct (vnode_release_present v vn vs Hv) as [vs' Hok']. congruence.
  - specialize (Hanswer _ _ _ Hnamev). cbn in Hanswer. lia.
  - specialize (Hanswer _ _ _ Hnamev). destruct Hanswer as [vn Hv']. congruence.
Qed.

(** X4. [do_open], lines 141-149: [res_vnode] is dereferenced without a test
    once [res] is not negative.  When the call reaches the resolver and the
    resolver reports success without storing a vnode, the call faults on the
    null pointer. *)
Theorem do_open_null_vnode (filename : string) (oflags : Z) (k : kernel)
    (j : nat) (f : file_ptr) (c : Z * Z) (res : Z) (vs : gmap vnode_ptr vnode_t) :
  table_ok (curproc k) ->
  0 < EMFILE ->
  fmode_nonneg ->
  ~ (Z.land oflags O_WRONLY <> 0 /\ Z.land oflags O_RDWR <> 0) ->
  lowest_free (curproc k) j ->
  slab_obj_alloc (file_allocator k) = Some (f, c) ->
  open_namev filename oflags (p_cwd (curproc k)) (vnodes k) = (res, None, vs) ->
  0 <= res ->
  do_open filename oflags k = Crash NullPointer.
Proof.
  intros Hok Hmfile Hpos Hvalid Hfree Halloc Hnamev Hres.
  apply intent_of_valid in Hvalid.
  pose proof (mode_set oflags Hpos Hvalid) as Hmode.
  pose proof (do_open_exit filename oflags k Hok) as Hex.
  inversion Hex; same_call; try congruence; try lia.
Qed.

(** X5. [do_open], lines 74-161: the value returned is an error (negative) or
    a descriptor of the table, below [NFILES], whose slot was null before
    the call and holds a file object after it; the status of the resolver,
    when it is not negative, never reaches the caller. *)
Theorem do_open_result_range (filename : string) (oflags : Z) (k k' : kernel) (r : Z) :
  table_ok (curproc k) ->
  errno_positive ->
  do_open filename oflags k = Done (r, k') ->
  r < 0 \/
  (0 <= r < Z.of_nat NFILES /\
   p_files (curproc k) !! Z.to_nat r = Some None /\
   exists f, p_files (curproc k') !! Z.to_nat r = Some (Some f)).
Proof.
  intros Hok Herrno Hrun.
  destruct (Z.lt_ge_cases r 0) as [Hneg | Hpos]; [by left | right].
  destruct (do_open_success_inv filename oflags k k' r Hok Herrno Hrun Hpos)
    as (j & f & c & res & v & vs & vn & _ & (Hlt & Hnull & _) & _ & _ & _ & _ & _
        & -> & ->).
  rewrite Nat2Z.id. cbn. split; [lia |]. split; [exact Hnull |].
  exists f. apply list_lookup_insert_eq. unfold table_ok in Hok. lia.
Qed.

(** X6. [do_open], lines 92-104 and 161: descriptors are handed out in
    ascending order.  When an open succeeds and a second open, from the
    state the first one left, succeeds too, the second descriptor is
    strictly greater than the first, and the slot of the first still holds
    its file object. *)
Theorem do_open_twice_ascending (filename1 filename2 : string) (oflags1 oflags2 : Z)
    (k k1 k2 : kernel) (r1 r2 : Z) :
  table_ok (curproc k) ->
  errno_positive ->
  do_open filename1 oflags1 k = Done (r1, k1) ->
  0 <= r1 ->
  do_open filename2 oflags2 k1 = Done (r2, k2) ->
  0 <= r2 ->
  r1 < r2 /\
  p_files (curproc k2) !! Z.to_nat r1 = p_files (curproc k1) !! Z.to_nat r1.
Proof.
  intros Hok Herrno Hrun1 Hr1 Hrun2 Hr2.
  destruct (do_open_success_inv filename1 oflags1 k k1 r1 Hok Herrno Hrun1 Hr1)
    as (j1 & f1 & c1 & res1 & v1 & vs1 & vn1 & _ & (Hlt1 & Hnull1 & Hbelow1)
        & _ & _ & _ & _ & _ & -> & ->).
  assert (Hok1 : table_ok (curproc
    (mk_kernel (mk_proc (p_pid (curproc k))
                        (<[j1 := Some f1]> (p_files (curproc k)))
                        (p_cwd (curproc k)))
               (<[f1 := mk_file (mode oflags1) 0 1 (Some v1)]> (file_allocator k))
               vs1))).
  { unfold table_ok in *. cbn. by rewrite length_insert. }
  destruct (do_open_success_inv filename2 oflags2 _ k2 r2 Hok1 Herrno Hrun2 Hr2)
    as (j2 & f2 & c2 & res2 & v2 & vs2 & vn2 & _ & (Hlt2 & Hnull2 & Hbelow2)
        & _ & _ & _ & _ & _ & -> & ->).
  cbn in Hnull2, Hbelow2 |- *. rewrite Nat2Z.id.
  assert (Hlen : (j1 < length (p_files (curproc k)))%nat)
    by (unfold table_ok in Hok; lia).
  assert (Hne : j2 <> j1).
  { intros ->. rewrite list_lookup_insert_eq in Hnull2 by exact Hlen. discriminate. }
  assert (Hlt : (j1 < j2)%nat).
  { destruct (Nat.lt_total j1 j2) as [? | [? | Hgt]]; [assumption | congruence |].
    rewrite list_lookup_insert_ne in Hnull2 by congruence.
    destruct (Hbelow1 j2 Hgt) as [f Hf]. congruence. }
  split; [lia |]. apply list_lookup_insert_ne. congruence.
Qed.

(** X7. [do_open], lines 98-158: no call touches a file object that existed
    before it.  With an allocator that hands out an object not in use,
    every object of the pool is in the pool after the call, with the same
    mode, position, reference count and vnode, whether the call succeeds or
    fails. *)
Theorem do_open_keeps_file_objects (filename : string) (oflags : Z) (k k' : kernel)
    (r : Z) (f' : file_ptr) (fo : file_t) :
  table_ok (curproc k) ->
  fresh_alloc k ->
  do_open filename oflags k = Done (r, k') ->
  file_allocator k !! f' = Some fo ->
  file_allocator k' !! f' = Some fo.
Proof.
  intros Hok Hfresh Hrun Hf'.
  destruct (do_open_done_shape filename oflags k k' r Hok Hrun)
    as [(_ & [Hsame | (f & c & Halloc & Hdel)])
       | (j & f & c & res & v & vs & vn & _ & Halloc & _ & _ & _ & _ & ->)].
  - by rewrite Hsame.
  - rewrite Hdel, (fresh_alloc_delete k f c Hfresh Halloc). exact Hf'.
  - cbn. unfold fresh_alloc in Hfresh. rewrite Halloc in Hfresh.
    rewrite lookup_insert_ne; [exact Hf' | congruence].
Qed.

(** X8. [do_open], lines 92-161: three invariants of the kernel state survive
    every call that returns, successful or not: the table keeps its
    [NFILES] entries, every descriptor in use refers to an object of the
    pool, and every object of the pool counts at least as many references
    as descriptors refer to it. *)
Theorem do_open_keeps_invariants (filename : string) (oflags : Z) (k k' : kernel) (r : Z) :
  table_ok (curproc k) ->
  fresh_alloc k ->
  table_live k ->
  refs_counted k ->
  do_open filename oflags k = Done (r, k') ->
  table_ok (curproc k') /\ table_live k' /\ refs_counted k'.
Proof.
  intros Hok Hfresh Hlive Hrefs Hrun.
  destruct (do_open_done_shape filename oflags k k' r Hok Hrun)
    as [(Hproc & Hpool)
       | (j & f & c & res & v & vs & vn & (Hlt & Hnull & _) & Halloc & _ & _ & _ & _ & ->)].
  - assert (Hsame : file_allocator k' = file_allocator k).
    { destruct Hpool as [Hsame | (f & c & Halloc & Hdel)]; [exact Hsame |].
      rewrite Hdel. by eapply fresh_alloc_delete. }
    unfold table_ok, table_live, refs_counted. rewrite Hproc, Hsame.
    split; [exact Hok |]. split; [exact Hlive | exact Hrefs].
  - pose proof (fresh_not_in_table k f c Hfresh Hlive Halloc) as Hunused.
    unfold table_ok, table_live, refs_counted in *. cbn.
    split; [by rewrite length_insert |]. split.
    + intros i g Hi. destruct (decide (i = j)) as [-> | Hne].
      * rewrite list_lookup_insert_eq in Hi by lia. inversion Hi; subst g.
        rewrite lookup_insert_eq. by eexists.
      * rewrite list_lookup_insert_ne in Hi by congruence.
        destruct (decide (g = f)) as [-> | Hgf].
        -- destruct (Hunused i Hi).
        -- rewrite lookup_insert_ne by congruence. by apply (Hlive i).
    + intros g go Hg. rewrite (slot_refs_insert f g _ j Hnull).
      destruct (decide (g = f)) as [-> | Hgf].
      * rewrite lookup_insert_eq in Hg. inversion Hg; subst go. cbn.
        rewrite (slot_refs_none f _ Hunused). lia.
      * rewrite lookup_insert_ne in Hg by congruence.
        specialize (Hrefs g go Hg). lia.
Qed.

(** X9. [do_open], lines 110-126: the derived mode grants no more than was
    asked.  With mode bits that do not overlap, a read-only request yields a
    mode without the write bit, a write-only request a mode without the read
    bit, and a request without the append bit a mode without the append
    bit. *)
Theorem mode_grants_what_was_asked (oflags : Z) :
  Z.land FMODE_READ FMODE_WRITE = 0 ->
  Z.land FMODE_READ FMODE_APPEND = 0 ->
  Z.land FMODE_WRITE FMODE_APPEND = 0 ->
  (intent_of oflags = Some ReadOnly -> Z.land (mode oflags) FMODE_WRITE = 0) /\
  (intent_of oflags = Some WriteOnly -> Z.land (mode oflags) FMODE_READ = 0) /\
  (intent_of oflags <> None -> has_bit oflags O_APPEND = false ->
   Z.land (mode oflags) FMODE_APPEND = 0).
Proof.
  intros Hrw Hra Hwa.
  assert (Hwr : Z.land FMODE_WRITE FMODE_READ = 0) by (by rewrite Z.land_comm).
  assert (Har : Z.land FMODE_APPEND FMODE_READ = 0) by (by rewrite Z.land_comm).
  assert (Haw : Z.land FMODE_APPEND FMODE_WRITE = 0) by (by rewrite Z.land_comm).
  repeat split.
  - intros Hi. rewrite (mode_intent oflags _ Hi). unfold intent_fmode.
    rewrite Z.land_lor_distr_l, Hrw.
    destruct (has_bit oflags O_APPEND); by rewrite ?Haw, ?Z.land_0_l.
  - intros Hi. rewrite (mode_intent oflags _ Hi). unfold intent_fmode.
    rewrite Z.land_lor_distr_l, Hwr.
    destruct (has_bit oflags O_APPEND); by rewrite ?Har, ?Z.land_0_l.
  - intros Hint Happ.
    destruct (intent_of oflags) as [i |] eqn:Hi; [| congruence].
    rewrite (mode_intent oflags i Hi), Happ. unfold intent_fmode.
    rewrite Z.lor_0_r.
    destruct i; rewrite ?Z.land_lor_distr_l, ?Hra, ?Hwa; reflexivity.
Qed.

(** X10. [do_open], lines 149-161: a directory can be opened with the mode
    [FMODE_READ].  The call returns the lowest free descriptor, and its slot
    holds the new file object, with that mode, position 0 and the vnode of
    the directory; the reference the resolver took on the vnode is kept. *)
Theorem do_open_directory_read_only (filename : string) (oflags : Z) (k : kernel)
    (j : nat) (f : file_ptr) (c : Z * Z)
    (res : Z) (v : vnode_ptr) (vn : vnode_t) (vs : gmap vnode_ptr vnode_t) :
  table_ok (curproc k) ->
  0 < EMFILE ->
  fmode_nonneg ->
  intent_of oflags = Some ReadOnly ->
  has_bit oflags O_APPEND = false ->
  lowest_free (curproc k) j ->
  slab_obj_alloc (file_allocator k) = Some (f, c) ->
  open_namev filename oflags (p_cwd (curproc k)) (vnodes k) = (res, Some v, vs) ->
  0 <= res ->
  vs !! v = Some vn ->
  Z.land (vn_mode vn) S_IFDIR <> 0 ->
  exists k',
    do_open filename oflags k = Done (Z.of_nat j, k') /\
    p_files (curproc k') !! j = Some (Some f) /\
    file_allocator k' !! f = Some (mk_file FMODE_READ 0 1 (Some v)) /\
    vnodes k' = vs.
Proof.
  intros Hok Hmfile Hpos Hi Happ Hfree Halloc Hnamev Hres Hv Hdir.
  assert (Hint : intent_of oflags <> None) by congruence.
  assert (Hmode : mode oflags = FMODE_READ).
  { rewrite (mode_intent oflags _ Hi), Happ. cbn. apply Z.lor_0_r. }
  eexists. split.
  - apply (do_open_success filename oflags k j f c res v vn vs);
      try assumption; [lia | by apply mode_set | by right].
  - cbn. rewrite Hmode. split; [| split; [apply lookup_insert_eq | reflexivity]].
    apply list_lookup_insert_eq. destruct Hfree as (Hlt & _ & _).
    unfold table_ok in Hok. lia.
Qed.

Lemma free_slots_insert (tbl : list (option file_ptr)) (j : nat) (f : file_ptr) :
  tbl !! j = Some None ->
  free_slots tbl = S (free_slots (<[j := Some f]> tbl)).
Proof.
  revert j. induction tbl as [| slot tbl IH]; intros j Hj; [discriminate |].
  destruct j as [| j].
  - inversion Hj; subst slot. reflexivity.
  - change (<[S j := Some f]> (slot :: tbl)) with (slot :: <[j := Some f]> tbl).
    destruct slot as [g |]; cbn [free_slots]; by rewrite (IH j Hj).
Qed.

(** X12. [do_open], lines 92-161: a successful call consumes exactly one
    descriptor and a failed call none: the number of null slots of the
    table goes down by one when the result is not negative and is unchanged
    when it is. *)
Theorem do_open_consumes_one_descriptor (filename : string) (oflags : Z)
    (k k' : kernel) (r : Z) :
  table_ok (curproc k) ->
  errno_positive ->
  do_open filename oflags k = Done (r, k') ->
  free_slots (p_files (curproc k)) =
  (free_slots (p_files (curproc k')) + (if (0 <=? r)%Z then 1 else 0))%nat.
Proof.
  intros Hok Herrno Hrun.
  destruct (Z.leb_spec 0 r) as [Hpos | Hneg].
  - destruct (do_open_success_inv filename oflags k k' r Hok Herrno Hrun Hpos)
      as (j & f & c & res & v & vs & vn & _ & (_ & Hnull & _) & _ & _ & _ & _ & _
          & -> & ->).
    cbn. rewrite (free_slots_insert _ j f Hnull). lia.
  - destruct (do_open_error_inv filename oflags k k' r Hok Hrun Hneg) as (-> & _).
    lia.
Qed.

Lemma write_intent_not_read (oflags : Z) (i : intent) :
  Z.land FMODE_READ FMODE_WRITE = 0 ->
  FMODE_WRITE <> 0 ->
  intent_of oflags = Some i ->
  i <> ReadOnly ->
  mode oflags <> FMODE_READ.
Proof.
  intros Hrw Hw Hi Hwrite Hmode.
  assert (Hland : Z.land (mode oflags) FMODE_WRITE = 0) by (by rewrite Hmode).
  rewrite (mode_intent oflags i Hi) in Hland. unfold intent_fmode in Hland.
  destruct i; [congruence | |];
    rewrite !Z.land_lor_distr_l, ?Hrw, Z.land_diag in Hland;
    rewrite ?Z.lor_0_l in Hland;
    apply Z.lor_eq_0_iff in Hland as [Hzero _]; congruence.
Qed.

(** X11. [do_open], lines 149-154: a directory cannot be opened write-only or
    read-write, with or without append.  The call returns [-EISDIR]; the
    process and the pool of file objects are as before the call, and the
    reference the resolver took on the vnode has been released. *)
Theorem do_open_directory_write_intent (filename : string) (oflags : Z) (k : kernel)
    (i : intent) (j : nat) (f : file_ptr) (c : Z * Z)
    (res : Z) (v : vnode_ptr) (vn : vnode_t) (vs vs' : gmap vnode_ptr vnode_t) :
  table_ok (curproc k) ->
  0 < EMFILE ->
  fmode_nonneg ->
  fresh_alloc k ->
  Z.land FMODE_READ FMODE_WRITE = 0 ->
  FMODE_WRITE <> 0 ->
  intent_of oflags = Some i ->
  i <> ReadOnly ->
  lowest_free (curproc k) j ->
  slab_obj_alloc (file_allocator k) = Some (f, c) ->
  open_namev filename oflags (p_cwd (curproc k)) (vnodes k) = (res, Some v, vs) ->
  0 <= res ->
  vs !! v = Some vn ->
  Z.land (vn_mode vn) S_IFDIR <> 0 ->
  vnode_release v vs = Done vs' ->
  do_open filename oflags k =
  Done (- EISDIR, mk_kernel (curproc k) (file_allocator k) vs').
Proof.
  intros Hok Hmfile Hpos Hfresh Hrw Hw Hi Hwrite Hfree Halloc Hnamev Hres Hv Hdir Hrel.
  assert (Hint : intent_of oflags <> None) by congruence.
  rewrite (do_open_eisdir filename oflags k j f c res v vn vs vs');
    try assumption;
    [| lia | by apply mode_set | by apply (write_intent_not_read oflags i)].
  by rewrite (fresh_alloc_delete k f c Hfresh Halloc).
Qed.

End OpenFacts.

(** * Concrete runs

    The theorems above, applied in the small world [sample_ext] with the
    Weenix constants. *)

Section Runs.

#[local] Existing Instance weenix.
#[local] Existing Instance sample_ext.

Lemma sample_lowest_free : lowest_free (curproc sample_kernel) 2.
Proof.
  split; [cbn; lia |]. split; [reflexivity |].
  intros i Hi. destruct i as [| [| i]]; [by exists 3%nat | by exists 3%nat | lia].
Qed.

Lemma full_kernel_occupied : all_occupied (curproc full_kernel).
Proof.
  intros i Hi. exists 3%nat.
  change (replicate 32 (Some 3%nat) !! i = Some (Some 3%nat)).
  apply lookup_replicate_2. exact Hi.
Qed.

Lemma weenix_fmode_nonneg : fmode_nonneg.
Proof. unfold fmode_nonneg. cbn. lia. Qed.

Lemma weenix_errno_positive : errno_positive.
Proof. unfold errno_positive. cbn. lia. Qed.

(** Closed facts are settled by evaluation. *)
Ltac by_run := vm_compute; first [reflexivity | discriminate | lia | tauto].

Lemma do_open_conflicting_intent_witness :
  Z.land 3 O_WRONLY <> 0 /\ Z.land 3 O_RDWR <> 0 /\
  do_open "/motd" 3 sample_kernel = Done (- EINVAL, sample_kernel).
Proof.
  split; [by_run |]. split; [by_run |].
  apply do_open_conflicting_intent; by_run.
Defined.

Lemma do_open_zero_intent_read_only_witness :
  Z.land 1024 O_WRONLY = 0 /\ Z.land 1024 O_RDWR = 0 /\
  mode 1024 = 5 /\
  table_ok (curproc sample_kernel) /\
  errno_positive /\
  do_open "/motd" 1024 sample_kernel = Done (2, opened_motd_with 5) /\
  0 <= 2 /\
  exists f fo,
    p_files (curproc (opened_motd_with 5)) !! Z.to_nat 2 = Some (Some f) /\
    file_allocator (opened_motd_with 5) !! f = Some fo /\
    f_mode fo = 5.
Proof.
  assert (Hwr : Z.land 1024 O_WRONLY = 0) by reflexivity.
  assert (Hrdwr : Z.land 1024 O_RDWR = 0) by reflexivity.
  destruct (do_open_zero_intent_read_only 1024 Hwr Hrdwr) as [Hmode Hstored].
  assert (Hrun : do_open "/motd" 1024 sample_kernel = Done (2, opened_motd_with 5))
    by by_run.
  split; [reflexivity |]. split; [reflexivity |]. split; [exact Hmode |].
  split; [reflexivity |]. split; [exact weenix_errno_positive |].
  split; [exact Hrun |]. split; [lia |].
  apply (Hstored "/motd" sample_kernel (opened_motd_with 5) 2);
    first [reflexivity | exact weenix_errno_positive | exact Hrun | lia].
Defined.

Lemma mode_sentinel_unreachable_witness :
  fmode_nonneg /\
  ~ (Z.land 1025 O_WRONLY <> 0 /\ Z.land 1025 O_RDWR <> 0) /\
  mode 1025 <> -1.
Proof.
  assert (Hpos : fmode_nonneg) by (unfold fmode_nonneg; repeat split; by_run).
  assert (Hvalid : ~ (Z.land 1025 O_WRONLY <> 0 /\ Z.land 1025 O_RDWR <> 0)).
  { intros [_ Hrdwr]. apply Hrdwr. reflexivity. }
  split; [exact Hpos |]. split; [exact Hvalid |].
  exact (mode_sentinel_unreachable 1025 Hpos Hvalid).
Defined.

Lemma get_empty_fd_in_bounds_witness :
  table_ok (curproc sample_kernel) /\
  (exists r, get_empty_fd (curproc sample_kernel) = Done r /\
             (r = - EMFILE \/ 0 <= r < Z.of_nat NFILES) /\
             (r <> - EMFILE ->
              0 <= r < Z.of_nat (length (p_files (curproc sample_kernel))))) /\
  forall (filename : string) (oflags : Z),
    do_open filename oflags sample_kernel <> Crash OutOfBounds.
Proof.
  split; [reflexivity |].
  apply (get_empty_fd_in_bounds sample_kernel). reflexivity.
Defined.

(** C5, as stated, fails: with every descriptor in use and flags that set
    both the write-only and the read-write bit, [do_open] returns [-EINVAL]
    (22), not [-EMFILE] (24). *)
Lemma do_open_full_table_einval :
  table_ok (curproc full_kernel) /\
  all_occupied (curproc full_kernel) /\
  get_empty_fd (curproc full_kernel) = Done (- EMFILE) /\
  do_open "/motd" 3 full_kernel = Done (-22, full_kernel) /\
  do_open "/motd" 3 full_kernel <> Done (- EMFILE, full_kernel).
Proof.
  split; [reflexivity |]. split; [exact full_kernel_occupied |].
  split; [by_run |]. split; [by_run |].
  assert (Hrun : do_open "/motd" 3 full_kernel = Done (-22, full_kernel)) by by_run.
  rewrite Hrun. intros Heq. inversion Heq.
Qed.

Lemma get_empty_fd_lowest_or_exhausted_witness :
  table_ok (curproc full_kernel) /\
  all_occupied (curproc full_kernel) /\
  get_empty_fd (curproc full_kernel) = Done (- EMFILE) /\
  do_open "/motd" 1 full_kernel = Done (- EMFILE, full_kernel).
Proof.
  assert (Hok : table_ok (curproc full_kernel)) by reflexivity.
  split; [exact Hok |]. split; [exact full_kernel_occupied |].
  destruct (get_empty_fd_lowest_or_exhausted full_kernel Hok) as [_ Hfull].
  destruct (Hfull full_kernel_occupied) as [Hget Hopen].
  split; [exact Hget |].
  apply Hopen. intros [_ Hrdwr]. apply Hrdwr. reflexivity.
Defined.

Lemma do_open_resolver_error_verbatim_witness :
  table_ok (curproc sample_kernel) /\
  0 < EMFILE /\
  fmode_nonneg /\
  fresh_alloc sample_kernel /\
  ~ (Z.land 0 O_WRONLY <> 0 /\ Z.land 0 O_RDWR <> 0) /\
  lowest_free (curproc sample_kernel) 2 /\
  slab_obj_alloc (file_allocator sample_kernel) = Some (7%nat, (-1, -1)) /\
  open_namev "/dev/tty9" 0 (p_cwd (curproc sample_kernel)) (vnodes sample_kernel)
    = (-6, Some 2%nat, vref 2%nat sample_vnodes) /\
  -6 < 0 /\
  vnode_release_opt (Some 2%nat) (vref 2%nat sample_vnodes) = Done sample_vnodes /\
  do_open "/dev/tty9" 0 sample_kernel = Done (-6, sample_kernel).
Proof.
  assert (Hvalid : ~ (Z.land 0 O_WRONLY <> 0 /\ Z.land 0 O_RDWR <> 0)).
  { intros [Hwr _]. apply Hwr. reflexivity. }
  repeat (split; [first [reflexivity | exact weenix_fmode_nonneg
                        | exact sample_lowest_free | exact Hvalid | by_run] |]).
  apply (do_open_resolver_error_verbatim "/dev/tty9" 0 sample_kernel 2 7%nat (-1, -1)
           (-6) (Some 2%nat) (vref 2%nat sample_vnodes) sample_vnodes);
    first [reflexivity | exact weenix_fmode_nonneg
          | exact sample_lowest_free | exact Hvalid | by_run].
Defined.

Lemma do_open_error_no_trace_witness :
  table_ok (curproc sample_kernel) /\
  fresh_alloc sample_kernel /\
  do_open "/" 1 sample_kernel = Done (-21, sample_kernel) /\
  -21 < 0 /\
  curproc sample_kernel = curproc sample_kernel /\
  file_allocator sample_kernel = file_allocator sample_kernel /\
  (vnodes sample_kernel = vnodes sample_kernel \/
   exists res rv vs,
     open_namev "/" 1 (p_cwd (curproc sample_kernel)) (vnodes sample_kernel)
       = (res, rv, vs) /\
     vnode_release_opt rv vs = Done (vnodes sample_kernel)).
Proof.
  assert (Hrun : do_open "/" 1 sample_kernel = Done (-21, sample_kernel)) by by_run.
  split; [reflexivity |]. split; [by_run |]. split; [exact Hrun |].
  split; [reflexivity |].
  apply (do_open_error_no_trace "/" 1 sample_kernel sample_kernel (-21));
    first [reflexivity | exact Hrun | by_run].
Defined.

Lemma do_open_regular_file_witness :
  table_ok (curproc sample_kernel) /\
  0 < EMFILE /\
  fmode_nonneg /\
  intent_of 2 = Some ReadWrite /\
  lowest_free (curproc sample_kernel) 2 /\
  slab_obj_alloc (file_allocator sample_kernel) = Some (7%nat, (-1, -1)) /\
  open_namev "/motd" 2 (p_cwd (curproc sample_kernel)) (vnodes sample_kernel)
    = (0, Some 2%nat, vref 2%nat sample_vnodes) /\
  0 <= 0 /\
  vref 2%nat sample_vnodes !! 2%nat = Some (mk_vnode 2048 2) /\
  Z.land (vn_mode (mk_vnode 2048 2)) S_IFDIR = 0 /\
  exists k',
    do_open "/motd" 2 sample_kernel = Done (2, k') /\
    p_files (curproc k') !! 2%nat = Some (Some 7%nat) /\
    file_allocator k' !! 7%nat = Some (mk_file 3 0 1 (Some 2%nat)).
Proof.
  repeat (split; [first [reflexivity | exact weenix_fmode_nonneg
                        | exact sample_lowest_free | by_run] |]).
  refine (do_open_regular_file "/motd" 2 sample_kernel ReadWrite 2 7%nat (-1, -1)
            0 2%nat (mk_vnode 2048 2) (vref 2%nat sample_vnodes)
            _ _ _ _ _ _ _ _ _ _);
    first [reflexivity | exact weenix_fmode_nonneg
          | exact sample_lowest_free | by_run].
Defined.

Lemma do_open_directory_read_append_witness :
  table_ok (curproc sample_kernel) /\
  0 < EMFILE /\
  fmode_nonneg /\
  fresh_alloc sample_kernel /\
  Z.lor FMODE_READ FMODE_APPEND <> FMODE_READ /\
  Z.land (Z.lor FMODE_READ FMODE_APPEND) FMODE_WRITE = 0 /\
  intent_of 1024 = Some ReadOnly /\
  has_bit 1024 O_APPEND = true /\
  lowest_free (curproc sample_kernel) 2 /\
  slab_obj_alloc (file_allocator sample_kernel) = Some (7%nat, (-1, -1)) /\
  open_namev "/" 1024 (p_cwd (curproc sample_kernel)) (vnodes sample_kernel)
    = (0, Some 1%nat, vref 1%nat sample_vnodes) /\
  0 <= 0 /\
  vref 1%nat sample_vnodes !! 1%nat = Some (mk_vnode 512 2) /\
  Z.land (vn_mode (mk_vnode 512 2)) S_IFDIR <> 0 /\
  vnode_release 1%nat (vref 1%nat sample_vnodes) = Done sample_vnodes /\
  Z.land (mode 1024) FMODE_WRITE = 0 /\
  do_open "/" 1024 sample_kernel = Done (- EISDIR, sample_kernel).
Proof.
  repeat (split; [first [reflexivity | exact weenix_fmode_nonneg
                        | exact sample_lowest_free | by_run] |]).
  apply (do_open_directory_read_append "/" 1024 sample_kernel 2 7%nat (-1, -1)
           0 1%nat (mk_vnode 512 2) (vref 1%nat sample_vnodes) sample_vnodes);
    first [reflexivity | exact weenix_fmode_nonneg
          | exact sample_lowest_free | by_run].
Defined.

Lemma do_open_frame_witness :
  table_ok (curproc sample_kernel) /\
  errno_positive /\
  do_open "/motd" 2 sample_kernel = Done (2, opened_motd) /\
  p_pid (curproc opened_motd) = p_pid (curproc sample_kernel) /\
  p_cwd (curproc opened_motd) = p_cwd (curproc sample_kernel) /\
  exists fd,
    get_empty_fd (curproc sample_kernel) = Done fd /\
    (forall i : nat, Z.of_nat i <> fd ->
       p_files (curproc opened_motd) !! i = p_files (curproc sample_kernel) !! i) /\
    (0 <= 2 ->
     2 = fd /\
     exists f c v,
       slab_obj_alloc (file_allocator sample_kernel) = Some (f, c) /\
       p_files (curproc opened_motd)
         = <[Z.to_nat fd := Some f]> (p_files (curproc sample_kernel)) /\
       file_allocator opened_motd !! f = Some (mk_file (mode 2) 0 1 (Some v))).
Proof.
  assert (Hrun : do_open "/motd" 2 sample_kernel = Done (2, opened_motd)) by by_run.
  split; [reflexivity |]. split; [exact weenix_errno_positive |].
  split; [exact Hrun |].
  apply (do_open_frame "/motd" 2 sample_kernel opened_motd 2);
    first [reflexivity | exact weenix_errno_positive | exact Hrun].
Defined.

(** ** Runs of the further properties *)

Lemma exhausted_lowest_free : lowest_free (curproc exhausted_kernel) 4.
Proof.
  split; [cbn; lia |]. split; [reflexivity |].
  intros i Hi.
  destruct i as [| [| [| [| i]]]];
    [by exists 3%nat | by exists 3%nat | by exists 7%nat | by exists 3%nat | lia].
Qed.

Lemma sample_table_live : table_live sample_kernel.
Proof.
  intros i f Hi.
  destruct i as [| [| [| [| i]]]]; try (inversion Hi; subst f; by eexists).
  change (replicate 28 (@None file_ptr) !! i = Some (Some f)) in Hi.
  apply lookup_replicate in Hi as [Hbad _]. discriminate.
Qed.

Lemma sample_refs_counted : refs_counted sample_kernel.
Proof.
  intros f fo Hf. destruct (decide (f = 3%nat)) as [-> | Hne].
  - vm_compute in Hf. inversion Hf; subst fo. by_run.
  - cbn in Hf. unfold sample_files in Hf.
    rewrite lookup_insert_ne in Hf by congruence.
    rewrite lookup_empty in Hf. discriminate.
Qed.

Lemma get_empty_fd_emfile_iff_full_witness :
  table_ok (curproc full_kernel) /\
  0 < EMFILE /\
  (get_empty_fd (curproc full_kernel) = Done (- EMFILE) <->
   all_occupied (curproc full_kernel)).
Proof.
  split; [reflexivity |]. split; [by_run |].
  apply (get_empty_fd_emfile_iff_full (curproc full_kernel)); [reflexivity | by_run].
Defined.

Lemma do_open_alloc_failure_witness :
  table_ok (curproc exhausted_kernel) /\
  0 < EMFILE /\
  ~ (Z.land 0 O_WRONLY <> 0 /\ Z.land 0 O_RDWR <> 0) /\
  lowest_free (curproc exhausted_kernel) 4 /\
  slab_obj_alloc (file_allocator exhausted_kernel) = None /\
  do_open "/motd" 0 exhausted_kernel = Done (- ENOMEM, exhausted_kernel).
Proof.
  assert (Hvalid : ~ (Z.land 0 O_WRONLY <> 0 /\ Z.land 0 O_RDWR <> 0)).
  { intros [Hwr _]. apply Hwr. reflexivity. }
  split; [reflexivity |]. split; [by_run |]. split; [exact Hvalid |].
  split; [exact exhausted_lowest_free |]. split; [by_run |].
  apply (do_open_alloc_failure "/motd" 0 exhausted_kernel 4);
    first [reflexivity | exact Hvalid | exact exhausted_lowest_free | by_run].
Defined.

Lemma do_open_returns_witness :
  table_ok (curproc sample_kernel) /\
  (forall res rv vs,
     open_namev "/motd" 2 (p_cwd (curproc sample_kernel)) (vnodes sample_kernel)
       = (res, rv, vs) ->
     namev_answer_ok res rv vs) /\
  exists r k', do_open "/motd" 2 sample_kernel = Done (r, k').
Proof.
  assert (Hanswer : forall res rv vs,
     open_namev "/motd" 2 (p_cwd (curproc sample_kernel)) (vnodes sample_kernel)
       = (res, rv, vs) ->
     namev_answer_ok res rv vs).
  { intros res rv vs Hnamev. vm_compute in Hnamev. inversion Hnamev; subst.
    vm_compute. by eexists. }
  split; [reflexivity |]. split; [exact Hanswer |].
  apply (do_open_returns "/motd" 2 sample_kernel); [reflexivity | exact Hanswer].
Defined.

Lemma do_open_null_vnode_witness :
  table_ok (curproc sample_kernel) /\
  0 < EMFILE /\
  fmode_nonneg /\
  ~ (Z.land 0 O_WRONLY <> 0 /\ Z.land 0 O_RDWR <> 0) /\
  lowest_free (curproc sample_kernel) 2 /\
  slab_obj_alloc (Collaborators := second_ext) (file_allocator sample_kernel)
    = Some (7%nat, (-1, -1)) /\
  open_namev (Collaborators := second_ext) "/void" 0
    (p_cwd (curproc sample_kernel)) (vnodes sample_kernel)
    = (0, None, sample_vnodes) /\
  0 <= 0 /\
  do_open (ext := second_ext) "/void" 0 sample_kernel = Crash NullPointer.
Proof.
  assert (Hvalid : ~ (Z.land 0 O_WRONLY <> 0 /\ Z.land 0 O_RDWR <> 0)).
  { intros [Hwr _]. apply Hwr. reflexivity. }
  repeat (split; [first [reflexivity | exact weenix_fmode_nonneg
                        | exact sample_lowest_free | exact Hvalid | by_run] |]).
  apply (do_open_null_vnode (ext := second_ext) "/void" 0 sample_kernel 2 7%nat
           (-1, -1) 0 sample_vnodes);
    first [reflexivity | exact weenix_fmode_nonneg
          | exact sample_lowest_free | exact Hvalid | by_run].
Defined.

Lemma do_open_result_range_witness :
  table_ok (curproc sample_kernel) /\
  errno_positive /\
  do_open "/motd" 2 sample_kernel = Done (2, opened_motd) /\
  (2 < 0 \/
   (0 <= 2 < Z.of_nat NFILES /\
    p_files (curproc sample_kernel) !! Z.to_nat 2 = Some None /\
    exists f, p_files (curproc opened_motd) !! Z.to_nat 2 = Some (Some f))).
Proof.
  assert (Hrun : do_open "/motd" 2 sample_kernel = Done (2, opened_motd)) by by_run.
  split; [reflexivity |]. split; [exact weenix_errno_positive |].
  split; [exact Hrun |].
  apply (do_open_result_range "/motd" 2 sample_kernel opened_motd 2);
    first [reflexivity | exact weenix_errno_positive | exact Hrun].
Defined.

Lemma do_open_twice_ascending_witness :
  table_ok (curproc sample_kernel) /\
  errno_positive /\
  do_open (ext := second_ext) "/motd" 2 sample_kernel = Done (2, opened_motd) /\
  0 <= 2 /\
  do_open (ext := second_ext) "/" 0 opened_motd = Done (4, opened_both) /\
  0 <= 4 /\
  2 < 4 /\
  p_files (curproc opened_both) !! Z.to_nat 2
    = p_files (curproc opened_motd) !! Z.to_nat 2.
Proof.
  assert (Hrun1 : do_open (ext := second_ext) "/motd" 2 sample_kernel
                  = Done (2, opened_motd)) by by_run.
  assert (Hrun2 : do_open (ext := second_ext) "/" 0 opened_motd
                  = Done (4, opened_both)) by by_run.
  split; [reflexivity |]. split; [exact weenix_errno_positive |].
  split; [exact Hrun1 |]. split; [lia |]. split; [exact Hrun2 |]. split; [lia |].
  apply (do_open_twice_ascending (ext := second_ext) "/motd" "/" 2 0
           sample_kernel opened_motd opened_both 2 4);
    first [reflexivity | exact weenix_errno_positive | exact Hrun1 | exact Hrun2
          | lia].
Defined.

Lemma do_open_keeps_file_objects_witness :
  table_ok (curproc sample_kernel) /\
  fresh_alloc sample_kernel /\
  do_open "/motd" 2 sample_kernel = Done (2, opened_motd) /\
  file_allocator sample_kernel !! 3%nat = Some (mk_file 3 0 3 (Some 2%nat)) /\
  file_allocator opened_motd !! 3%nat = Some (mk_file 3 0 3 (Some 2%nat)).
Proof.
  assert (Hrun : do_open "/motd" 2 sample_kernel = Done (2, opened_motd)) by by_run.
  split; [reflexivity |]. split; [by_run |]. split; [exact Hrun |].
  split; [reflexivity |].
  apply (do_open_keeps_file_objects "/motd" 2 sample_kernel opened_motd 2);
    first [reflexivity | exact Hrun | by_run].
Defined.

Lemma do_open_keeps_invariants_witness :
  table_ok (curproc sample_kernel) /\
  fresh_alloc sample_kernel /\
  table_live sample_kernel /\
  refs_counted sample_kernel /\
  do_open "/motd" 2 sample_kernel = Done (2, opened_motd) /\
  table_ok (curproc opened_motd) /\ table_live opened_motd /\
  refs_counted opened_motd.
Proof.
  assert (Hrun : do_open "/motd" 2 sample_kernel = Done (2, opened_motd)) by by_run.
  split; [reflexivity |]. split; [by_run |]. split; [exact sample_table_live |].
  split; [exact sample_refs_counted |]. split; [exact Hrun |].
  apply (do_open_keeps_invariants "/motd" 2 sample_kernel opened_motd 2);
    first [reflexivity | exact sample_table_live | exact sample_refs_counted
          | exact Hrun | by_run].
Defined.

Lemma mode_grants_what_was_asked_witness :
  Z.land FMODE_READ FMODE_WRITE = 0 /\
  Z.land FMODE_READ FMODE_APPEND = 0 /\
  Z.land FMODE_WRITE FMODE_APPEND = 0 /\
  (intent_of 256 = Some ReadOnly -> Z.land (mode 256) FMODE_WRITE = 0) /\
  (intent_of 256 = Some WriteOnly -> Z.land (mode 256) FMODE_READ = 0) /\
  (intent_of 256 <> None -> has_bit 256 O_APPEND = false ->
   Z.land (mode 256) FMODE_APPEND = 0).
Proof.
  split; [reflexivity |]. split; [reflexivity |]. split; [reflexivity |].
  apply (mode_grants_what_was_asked 256); reflexivity.
Defined.

Lemma do_open_directory_read_only_witness :
  table_ok (curproc sample_kernel) /\
  0 < EMFILE /\
  fmode_nonneg /\
  intent_of 0 = Some ReadOnly /\
  has_bit 0 O_APPEND = false /\
  lowest_free (curproc sample_kernel) 2 /\
  slab_obj_alloc (file_allocator sample_kernel) = Some (7%nat, (-1, -1)) /\
  open_namev "/" 0 (p_cwd (curproc sample_kernel)) (vnodes sample_kernel)
    = (0, Some 1%nat, vref 1%nat sample_vnodes) /\
  0 <= 0 /\
  vref 1%nat sample_vnodes !! 1%nat = Some (mk_vnode 512 2) /\
  Z.land (vn_mode (mk_vnode 512 2)) S_IFDIR <> 0 /\
  exists k',
    do_open "/" 0 sample_kernel = Done (2, k') /\
    p_files (curproc k') !! 2%nat = Some (Some 7%nat) /\
    file_allocator k' !! 7%nat = Some (mk_file FMODE_READ 0 1 (Some 1%nat)) /\
    vnodes k' = vref 1%nat sample_vnodes.
Proof.
  repeat (split; [first [reflexivity | exact weenix_fmode_nonneg
                        | exact sample_lowest_free | by_run] |]).
  refine (do_open_directory_read_only "/" 0 sample_kernel 2 7%nat (-1, -1)
            0 1%nat (mk_vnode 512 2) (vref 1%nat sample_vnodes)
            _ _ _ _ _ _ _ _ _ _ _);
    first [reflexivity | exact weenix_fmode_nonneg
          | exact sample_lowest_free | by_run].
Defined.

Lemma do_open_directory_write_intent_witness :
  table_ok (curproc sample_kernel) /\
  0 < EMFILE /\
  fmode_nonneg /\
  fresh_alloc sample_kernel /\
  Z.land FMODE_READ FMODE_WRITE = 0 /\
  FMODE_WRITE <> 0 /\
  intent_of 1025 = Some WriteOnly /\
  WriteOnly <> ReadOnly /\
  lowest_free (curproc sample_kernel) 2 /\
  slab_obj_alloc (file_allocator sample_kernel) = Some (7%nat, (-1, -1)) /\
  open_namev "/" 1025 (p_cwd (curproc sample_kernel)) (vnodes sample_kernel)
    = (0, Some 1%nat, vref 1%nat sample_vnodes) /\
  0 <= 0 /\
  vref 1%nat sample_vnodes !! 1%nat = Some (mk_vnode 512 2) /\
  Z.land (vn_mode (mk_vnode 512 2)) S_IFDIR <> 0 /\
  vnode_release 1%nat (vref 1%nat sample_vnodes) = Done sample_vnodes /\
  do_open "/" 1025 sample_kernel = Done (- EISDIR, sample_kernel).
Proof.
  repeat (split; [first [reflexivity | exact weenix_fmode_nonneg
                        | exact sample_lowest_free | discriminate | by_run] |]).
  apply (do_open_directory_write_intent "/" 1025 sample_kernel WriteOnly 2 7%nat
           (-1, -1) 0 1%nat (mk_vnode 512 2) (vref 1%nat sample_vnodes)
           sample_vnodes);
    first [reflexivity | exact weenix_fmode_nonneg
          | exact sample_lowest_free | discriminate | by_run].
Defined.

Lemma do_open_consumes_one_descriptor_witness :
  table_ok (curproc sample_kernel) /\
  errno_positive /\
  do_open "/motd" 2 sample_kernel = Done (2, opened_motd) /\
  free_slots (p_files (curproc sample_kernel)) =
  (free_slots (p_files (curproc opened_motd)) + (if (0 <=? 2)%Z then 1 else 0))%nat.
Proof.
  assert (Hrun : do_open "/motd" 2 sample_kernel = Done (2, opened_motd)) by by_run.
  split; [reflexivity |]. split; [exact weenix_errno_positive |].
  split; [exact Hrun |].
  apply (do_open_consumes_one_descriptor "/motd" 2 sample_kernel opened_motd 2);
    first [reflexivity | exact weenix_errno_positive | exact Hrun].
Defined.

End Runs.
